(** * Media-downloader: the download job manager of [app.py]

    A shallow embedding of [DownloadManager] (the job registry, the worker
    of a download, the progress hook handed to the extraction engine) and of
    the two request handlers that reach it, followed by the properties of
    the job manager that the specification states.

    Conventions of the embedding.
    - A Python [dict] with string keys is a [gmap string pyval].
    - Dict objects are mutable and shared: the registry [self.downloads]
      maps a download id to a *reference* (a location of the object store
      [objs]); every reader and every worker that holds the reference sees
      the same object.
    - Python's [float] is IEEE 754 binary64: the kernel's primitive floats,
      with their rounding to nearest, ties to even. An [int] is unbounded.
    - The clock ([time.time()], [datetime.now()]) and the outcome of the
      extraction engine are inputs of the operations that read them.
    - A raised exception is the result [None] of an operation that returns
      an [option]. *)

From Stdlib Require Import ZArith Lia List Ascii String Floats.
From stdpp Require Import base gmap strings list fin_maps.

Local Open Scope Z_scope.

(* ===================================================================== *)
(** ** [hashlib.md5]: the MD5 digest of RFC 1321 over a list of bytes      *)
(* ===================================================================== *)

Module Md5.

Definition add32 (x y : Z) : Z := (x + y) mod 2 ^ 32.
Definition not32 (x : Z) : Z := Z.lxor x 4294967295.
Definition rotl32 (x n : Z) : Z :=
  Z.lor (Z.shiftl x n mod 2 ^ 32) (Z.shiftr x (32 - n)).

(** per-round left rotations *)
Definition shifts : list Z :=
  [7; 12; 17; 22; 7; 12; 17; 22; 7; 12; 17; 22; 7; 12; 17; 22;
   5; 9; 14; 20; 5; 9; 14; 20; 5; 9; 14; 20; 5; 9; 14; 20;
   4; 11; 16; 23; 4; 11; 16; 23; 4; 11; 16; 23; 4; 11; 16; 23;
   6; 10; 15; 21; 6; 10; 15; 21; 6; 10; 15; 21; 6; 10; 15; 21].

(** [K i = floor (2^32 * |sin (i + 1)|)] *)
Definition K : list Z :=
  [3614090360; 3905402710; 606105819; 3250441966;
   4118548399; 1200080426; 2821735955; 4249261313;
   1770035416; 2336552879; 4294925233; 2304563134;
   1804603682; 4254626195; 2792965006; 1236535329;
   4129170786; 3225465664; 643717713; 3921069994;
   3593408605; 38016083; 3634488961; 3889429448;
   568446438; 3275163606; 4107603335; 1163531501;
   2850285829; 4243563512; 1735328473; 2368359562;
   4294588738; 2272392833; 1839030562; 4259657740;
   2763975236; 1272893353; 4139469664; 3200236656;
   681279174; 3936430074; 3572445317; 76029189;
   3654602809; 3873151461; 530742520; 3299628645;
   4096336452; 1126891415; 2878612391; 4237533241;
   1700485571; 2399980690; 4293915773; 2240044497;
   1873313359; 4264355552; 2734768916; 1309151649;
   4149444226; 3174756917; 718787259; 3951481745].

Definition at_ (l : list Z) (i : Z) : Z := nth (Z.to_nat i) l 0.

(** [n] bytes of [x], least significant first *)
Fixpoint le_bytes (n : nat) (x : Z) : list Z :=
  match n with
  | O => []
  | S n' => (x mod 256) :: le_bytes n' (x / 256)
  end.

(** the message, a [1] bit, zeros up to 56 mod 64, the bit length on 64 bits *)
Definition pad (msg : list Z) : list Z :=
  let len := Z.of_nat (List.length msg) in
  msg ++ [128] ++ repeat 0 (Z.to_nat ((55 - len) mod 64))
      ++ le_bytes 8 ((8 * len) mod 2 ^ 64).

(** little-endian 32-bit words of a byte list *)
Fixpoint words (fuel : nat) (bs : list Z) : list Z :=
  match fuel, bs with
  | S f, b0 :: b1 :: b2 :: b3 :: rest =>
      (b0 + 256 * b1 + 65536 * b2 + 16777216 * b3) :: words f rest
  | _, _ => []
  end.

Definition step (M : list Z) (st : Z * Z * Z * Z) (i : Z) : Z * Z * Z * Z :=
  let '(A, B, C, D) := st in
  let '(F, g) :=
    if i <? 16 then (Z.lor (Z.land B C) (Z.land (not32 B) D), i)
    else if i <? 32 then (Z.lor (Z.land D B) (Z.land (not32 D) C), (5 * i + 1) mod 16)
    else if i <? 48 then (Z.lxor (Z.lxor B C) D, (3 * i + 5) mod 16)
    else (Z.lxor C (Z.lor B (not32 D)), (7 * i) mod 16) in
  let F' := (F + A + at_ K i + at_ M g) mod 2 ^ 32 in
  (D, add32 B (rotl32 F' (at_ shifts i)), B, C).

Definition block (st : Z * Z * Z * Z) (M : list Z) : Z * Z * Z * Z :=
  let '(a0, b0, c0, d0) := st in
  let '(A, B, C, D) := fold_left (step M) (map Z.of_nat (seq 0 64)) st in
  (add32 a0 A, add32 b0 B, add32 c0 C, add32 d0 D).

(** the 16-word blocks of a word list *)
Fixpoint blocks (fuel : nat) (ws : list Z) : list (list Z) :=
  match fuel, ws with
  | S f, _ :: _ => firstn 16 ws :: blocks f (skipn 16 ws)
  | _, _ => []
  end.

Definition digest (msg : list Z) : list Z :=
  let bs := pad msg in
  let ws := words (List.length bs) bs in
  let '(a, b, c, d) :=
    fold_left block (blocks (List.length ws) ws)
              (1732584193, 4023233417, 2562383102, 271733878) in
  le_bytes 4 a ++ le_bytes 4 b ++ le_bytes 4 c ++ le_bytes 4 d.

Definition hex_digit (n : Z) : ascii :=
  ascii_of_nat (Z.to_nat (if n <? 10 then 48 + n else 87 + n)).

Fixpoint hex (bs : list Z) : string :=
  match bs with
  | [] => EmptyString
  | b :: rest => String (hex_digit (b / 16)) (String (hex_digit (b mod 16)) (hex rest))
  end.

(** [s.encode()]: a string is the sequence of its bytes *)
Definition encode (s : string) : list Z :=
  map (fun c => Z.of_nat (nat_of_ascii c)) (list_ascii_of_string s).

(** [hashlib.md5(s.encode()).hexdigest()] *)
Definition hexdigest (s : string) : string := hex (digest (encode s)).

End Md5.

(* ===================================================================== *)
(** ** Python values and the operators the job manager applies to them    *)
(* ===================================================================== *)

Inductive pyval :=
| PNone
| PInt (z : Z)
| PFloat (f : float)
| PStr (s : string).

(** a [dict] with string keys *)
Abbreviation dict := (gmap string pyval).

(** identity of a dict object *)
Abbreviation loc := positive.

(** [bool(v)] *)
Definition truthy (v : pyval) : bool :=
  match v with
  | PNone => false
  | PInt z => negb (z =? 0)
  | PFloat f => negb (f =? 0)%float
  | PStr s => negb (String.eqb s "")
  end.

(** [a or b] *)
Definition py_or (a b : pyval) : pyval := if truthy a then a else b.

(** [bool(d)] for a dict: non-empty *)
Definition dict_truthy (d : dict) : bool := negb (bool_decide (size d = 0%nat)).

(** [d.get(k)] and [d.get(k, v)] *)
Definition dict_get (d : dict) (k : string) : pyval := default PNone (d !! k).
Definition dict_get_default (d : dict) (k : string) (v : pyval) : pyval := default v (d !! k).

(** [v == s] for a string literal [s] *)
Definition py_eq_str (v : pyval) (s : string) : bool :=
  match v with
  | PStr s' => String.eqb s' s
  | _ => false
  end.

(** [float(z)] for an [int]: the nearest binary64 value, ties to even;
    [OverflowError] beyond the range of a float *)
Definition float_of_int (z : Z) : option float :=
  match binary_normalize prec emax z 0 false with
  | S754_infinity _ => None
  | sf => Some (SF2Prim sf)
  end.

(** [a / b] on two [int]s: the exact quotient rounded once to binary64
    (the quotient is cut below its 64th bit, with a sticky bit for what is
    cut off, and then rounded); [ZeroDivisionError] on a zero divisor,
    [OverflowError] when the quotient is beyond the range of a float *)
Definition int_truediv (a b : Z) : option float :=
  if b =? 0 then None
  else if a =? 0 then Some (if b <? 0 then neg_zero else zero)
  else
    let k := 64 + Z.log2 (Z.abs b) in
    let n := Z.abs a * 2 ^ k in
    let sticky := if n mod Z.abs b =? 0 then 0 else 1 in
    let m := 2 * (n / Z.abs b) + sticky in
    match binary_normalize prec emax (if xorb (a <? 0) (b <? 0) then - m else m)
                           (- (k + 1)) false with
    | S754_infinity _ => None
    | sf => Some (SF2Prim sf)
    end.

(** the order of a float and an [int], compared exactly as Python does;
    [None] for a NaN, which is neither below nor above anything *)
Definition float_cmp_int (f : float) (z : Z) : option comparison :=
  match Prim2SF f with
  | S754_nan => None
  | S754_infinity s => Some (if s then Lt else Gt)
  | S754_zero _ => Some (0 ?= z)
  | S754_finite s m e =>
      let v := if s then Zneg m else Zpos m in
      Some (if 0 <=? e then (v * 2 ^ e ?= z) else (v ?= z * 2 ^ (- e)))
  end.

(** the float an operand of mixed arithmetic is converted to; [TypeError]
    on [None] and on a string *)
Definition to_float (v : pyval) : option float :=
  match v with
  | PInt z => float_of_int z
  | PFloat f => Some f
  | _ => None
  end.

(** [a < b] on numbers, an [int] and a float compared exactly; [TypeError]
    on [None] and on a string against a number (one operand is an [int]
    literal at the call sites below) *)
Definition py_lt (a b : pyval) : option bool :=
  match a, b with
  | PInt x, PInt y => Some (x <? y)
  | PFloat x, PFloat y => Some (x <? y)%float
  | PFloat x, PInt y => Some (match float_cmp_int x y with Some Lt => true | _ => false end)
  | PInt x, PFloat y => Some (match float_cmp_int y x with Some Gt => true | _ => false end)
  | _, _ => None
  end.

(** [a > b] *)
Definition py_gt (a b : pyval) : option bool := py_lt b a.

(** [a / b]: true division, always a float; [TypeError] on a non-number,
    [ZeroDivisionError] on a zero divisor, [OverflowError] when an [int]
    operand or the quotient of two [int]s is beyond the range of a float *)
Definition py_truediv (a b : pyval) : option pyval :=
  match a, b with
  | PInt x, PInt y => PFloat <$> int_truediv x y
  | _, _ =>
      x ← to_float a; y ← to_float b;
      if (y =? 0)%float then None else Some (PFloat (x / y)%float)
  end.

(** [a * b] and [a + b] on numbers (the call sites below have an [int]
    literal on the right): [int] with [int] is an [int], anything else
    numeric is the binary64 result on the operands converted to floats;
    [TypeError] on [None] and on a string, [OverflowError] when an [int]
    operand is beyond the range of a float *)
Definition py_mul (a b : pyval) : option pyval :=
  match a, b with
  | PInt x, PInt y => Some (PInt (x * y))
  | _, _ => x ← to_float a; y ← to_float b; Some (PFloat (x * y)%float)
  end.

Definition py_add (a b : pyval) : option pyval :=
  match a, b with
  | PInt x, PInt y => Some (PInt (x + y))
  | _, _ => x ← to_float a; y ← to_float b; Some (PFloat (x + y)%float)
  end.

(** [min(a, b)]: the first argument unless the second is smaller *)
Definition py_min (a b : pyval) : option pyval :=
  lt ← py_lt b a; Some (if lt : bool then b else a).

(* ===================================================================== *)
(** ** [DownloadManager]                                                   *)
(* ===================================================================== *)

Definition MAX_WORKERS : nat := 4.

(** Where a worker of the pool stands in [_download_worker]. The reference
    [download] is bound by the first statement and kept to the end. *)
Inductive pc :=
| AtStart                                  (* submitted, not yet running *)
| InEngine (download : loc)                (* in the try block, up to the glob *)
| AtStatusCompleted (download : loc)       (* next: status = 'completed' *)
| AtProgress100 (download : loc)           (* next: progress = 100 *)
| AtCompletedAt (download : loc)           (* next: completed_at = now *)
| AtError (download : loc) (e : string)    (* next: error = str(e) *)
| AtErrorCompletedAt (download : loc)      (* next: completed_at = now *)
| Returned.

(** a task submitted to the executor: [_download_worker(download_id)] *)
Record task := Task { task_id : string; task_pc : pc }.

Record manager := Manager {
  downloads : gmap string loc;     (* self.downloads: id -> dict object *)
  objs : gmap loc dict;            (* the dict objects *)
  executor : list task;            (* self.executor: the submitted tasks *)
  download_dir : string;           (* self.download_dir *)
  settings_file : string           (* self.settings_file *)
}.

Definition with_objs (o : gmap loc dict) (m : manager) : manager :=
  Manager (downloads m) o (executor m) (download_dir m) (settings_file m).

Definition with_executor (e : list task) (m : manager) : manager :=
  Manager (downloads m) (objs m) e (download_dir m) (settings_file m).

(** [obj[k] = v] through a reference to a dict *)
Definition setitem (l : loc) (k : string) (v : pyval) (m : manager) : manager :=
  match objs m !! l with
  | Some r => with_objs (<[l := <[k := v]> r]> (objs m)) m
  | None => m
  end.

(** What [_init] reads from outside: [Path.home()], and the parsed content
    of a settings file ([None] when the file is missing, unreadable or not
    a JSON object). *)
Record fs_env := FsEnv {
  home : string;
  read_settings : string -> option dict
}.

Definition load_settings (env : fs_env) (m : manager) : manager :=
  match read_settings env (settings_file m) with
  | Some settings =>
      match dict_get_default settings "download_path" (PStr (download_dir m)) with
      | PStr p => Manager (downloads m) (objs m) (executor m) p (settings_file m)
      | _ => m                             (* Path(...) raises; except: pass *)
      end
  | None => m
  end.

(** [_init] when the default directory can be created: the object it
    leaves. Its one statement outside any try block that the surroundings
    can make raise is the [mkdir] of the default directory; that case is
    [interrupted_init], chosen by [DownloadManager_new]. *)
Definition _init (env : fs_env) : manager :=
  let dir := (home env +:+ "/Downloads/MediaDownloader")%string in
  load_settings env (Manager ∅ ∅ [] dir (dir +:+ "/settings.json")).

(** The object as [_init] leaves it when that [mkdir] raises: the registry,
    the executor and [download_dir] are set, [load_settings] has not run and
    the attribute [settings_file] does not exist. The field is not read on
    such an object: only [save_settings] reads it, and there the missing
    attribute raises inside the method's own try block. *)
Definition interrupted_init (env : fs_env) : manager :=
  Manager ∅ ∅ [] (home env +:+ "/Downloads/MediaDownloader")%string "".

(** the class attribute [_instance]: [None], or the one object, which
    [_init] has initialised to the end or not *)
Inductive class_state :=
| NoInstance
| Instance (initialised : bool) (m : manager).

(** [DownloadManager.__new__]: the class attribute is the state threaded
    through; the result is the instance returned, [None] when the call
    raises. [_instance] is assigned before [_init] runs, so an [_init] that
    raises leaves the object it was working on in the class attribute.
    [mkdir_ok] tells whether the default directory can be created. *)
Definition DownloadManager_new (env : fs_env) (mkdir_ok : bool) (_instance : class_state)
  : class_state * option manager :=
  match _instance with
  | NoInstance =>
      if mkdir_ok then (Instance true (_init env), Some (_init env))
      else (Instance false (interrupted_init env), None)
  | Instance _ m => (_instance, Some m)
  end.

(** the job record built by [start_download] *)
Definition new_record (download_id url format_id : string) (filename : pyval)
    (now_iso : string) : dict :=
  <["id" := PStr download_id]> (
  <["url" := PStr url]> (
  <["format_id" := PStr format_id]> (
  <["filename" := filename]> (
  <["status" := PStr "queued"]> (
  <["progress" := PInt 0]> (
  <["started_at" := PStr now_iso]> (
  <["completed_at" := PNone]> (
  <["error" := PNone]> (
  <["filepath" := PNone]> (
  <["downloaded_bytes" := PInt 0]> (
  <["total_bytes" := PInt 0]> (
  <["speed" := PInt 0]> (
  <["eta" := PNone]> ∅))))))))))))).

(** [hashlib.md5(f"{url}{format_id}{time.time()}".encode()).hexdigest()[:8]];
    [time_time] is the text of the clock reading *)
Definition make_id (url format_id time_time : string) : string :=
  substring 0 8 (Md5.hexdigest (url +:+ format_id +:+ time_time)).

Definition start_download (url format_id : string) (filename : pyval)
    (time_time now_iso : string) (m : manager) : string * manager :=
  let download_id := make_id url format_id time_time in
  let l := fresh (dom (objs m)) in
  (download_id,
   Manager (<[download_id := l]> (downloads m))
           (<[l := new_record download_id url format_id filename now_iso]> (objs m))
           (executor m ++ [Task download_id AtStart])
           (download_dir m) (settings_file m)).

(** The assignments of the progress hook on the job record [download],
    given the engine's event [d]; [None] when an operator raises (nothing
    has been assigned yet at that point). *)
Definition hook_record (d download : dict) : option dict :=
  let total := py_or (dict_get d "total_bytes") (dict_get d "total_bytes_estimate") in
  let downloaded := dict_get_default d "downloaded_bytes" (PInt 0) in
  known ← (if truthy total then py_gt total (PInt 0) else Some false);
  progress ← (if known : bool
              then q ← py_truediv downloaded total; py_mul q (PInt 100)
              else s ← py_add (dict_get_default download "progress" (PInt 0)) (PInt 10);
                   py_min s (PInt 90));
  Some (<["eta" := dict_get d "eta"]> (
        <["speed" := dict_get d "speed"]> (
        <["total_bytes" := total]> (
        <["downloaded_bytes" := downloaded]> (
        <["progress" := progress]> download))))).

(** the closure returned by [_create_progress_hook(download_id)], applied
    to an event [d] *)
Definition hook (download_id : string) (d : dict) (m : manager) : option manager :=
  status ← d !! "status";
  if py_eq_str status "downloading" then
    match downloads m !! download_id with
    | Some l =>
        match objs m !! l with
        | Some download =>
            if dict_truthy download then
              download' ← hook_record d download;
              Some (with_objs (<[l := download']> (objs m)) m)
            else Some m
        | None => Some m
        end
    | None => Some m
    end
  else Some m.

(** [get_download]: the reference stored in the registry, or a new empty
    dict *)
Definition get_download (download_id : string) (m : manager) : loc * manager :=
  match downloads m !! download_id with
  | Some l => (l, m)
  | None => let l := fresh (dom (objs m)) in (l, with_objs (<[l := ∅]> (objs m)) m)
  end.

(** [get_all_downloads] is not used by the handlers and is left out. *)

(* ===================================================================== *)
(** ** [_download_worker], one statement at a time                         *)
(* ===================================================================== *)

(** What the surroundings supply to the next move of a worker. *)
Inductive worker_input :=
| Next (now_iso : string)             (* run the next statement; the clock is read
                                         by the two [completed_at] assignments *)
| Hook (d : dict)                     (* the engine calls the progress hook *)
| EngineReturns (found : option string)
                                      (* [ydl.download] returned; the first match
                                         of the glob, if any *)
| Raise (e : string).                 (* an exception in the try block, [str(e)] *)

(** tasks between their first statement and their return *)
Definition running (t : task) : bool :=
  match task_pc t with
  | AtStart | Returned => false
  | _ => true
  end.

Definition busy (m : manager) : nat := List.length (filter (fun t => running t = true) (executor m)).

(** One move of the worker running task [t]. [None]: the move is not
    possible there (a pool of [MAX_WORKERS] threads starts no further task
    while all are busy; a hook call that raises is the input [Raise]). *)
Definition _download_worker (i : worker_input) (t : task) (m : manager)
  : option (pc * manager) :=
  match task_pc t, i with
  | AtStart, Next _ =>
      if bool_decide (busy m < MAX_WORKERS)%nat then
        match downloads m !! task_id t with
        | Some download => Some (InEngine download, setitem download "status" (PStr "downloading") m)
        | None => Some (Returned, m)                       (* KeyError, outside the try *)
        end
      else None
  | InEngine download, Hook d =>
      m' ← hook (task_id t) d m; Some (InEngine download, m')
  | InEngine download, EngineReturns (Some actual_file) =>
      Some (AtStatusCompleted download, setitem download "filepath" (PStr actual_file) m)
  | InEngine download, EngineReturns None =>
      Some (AtStatusCompleted download, m)
  | InEngine download, Raise e =>
      Some (AtError download e, setitem download "status" (PStr "error") m)
  | AtStatusCompleted download, Next _ =>
      Some (AtProgress100 download, setitem download "status" (PStr "completed") m)
  | AtProgress100 download, Next _ =>
      Some (AtCompletedAt download, setitem download "progress" (PInt 100) m)
  | AtCompletedAt download, Next now_iso =>
      Some (Returned, setitem download "completed_at" (PStr now_iso) m)
  | AtError download e, Next _ =>
      Some (AtErrorCompletedAt download, setitem download "error" (PStr e) m)
  | AtErrorCompletedAt download, Next now_iso =>
      Some (Returned, setitem download "completed_at" (PStr now_iso) m)
  | _, _ => None
  end.

(** What can happen to a manager: a call of one of its two public methods,
    or a move of the [n]-th submitted task. *)
Inductive action :=
| StartDownload (url format_id : string) (filename : pyval) (time_time now_iso : string)
| GetDownload (download_id : string)
| Worker (n : nat) (i : worker_input).

Definition step (a : action) (m : manager) : option manager :=
  match a with
  | StartDownload url format_id filename time_time now_iso =>
      Some (snd (start_download url format_id filename time_time now_iso m))
  | GetDownload download_id => Some (snd (get_download download_id m))
  | Worker n i =>
      t ← executor m !! n;
      '(p, m') ← _download_worker i t m;
      Some (with_executor (<[n := Task (task_id t) p]> (executor m')) m')
  end.

Fixpoint run (acts : list action) (m : manager) : option manager :=
  match acts with
  | [] => Some m
  | a :: rest => m' ← step a m; run rest m'
  end.

(** The action hands out an id that the registry does not hold yet. *)
Definition issues_new_id (a : action) (m : manager) : bool :=
  match a with
  | StartDownload url format_id _ time_time _ =>
      bool_decide (downloads m !! make_id url format_id time_time = None)
  | _ => true
  end.

(** a run in which no id is handed out twice *)
Fixpoint run_distinct (acts : list action) (m : manager) : option manager :=
  match acts with
  | [] => Some m
  | a :: rest =>
      if issues_new_id a m then m' ← step a m; run_distinct rest m' else None
  end.

(* ===================================================================== *)
(** ** [MediaDownloaderHandler]: the two handlers that reach the manager   *)
(* ===================================================================== *)

(** [send_json_response(data, status)] *)
Record response := Response { resp_status : Z; resp_body : dict }.

(** A field of the parsed request body: a JSON string, or [None] for JSON
    [null]; a key the body lacks is absent from the map. *)
Abbreviation body := (gmap string (option string)).

(** [not v] *)
Definition falsy (v : option string) : bool :=
  match v with
  | Some s => String.eqb s ""
  | None => true
  end.

Definition of_json (v : option string) : pyval :=
  match v with
  | Some s => PStr s
  | None => PNone
  end.

Definition handle_download (data : body) (time_time now_iso : string) (m : manager)
  : response * manager :=
  let url := default None (data !! "url") in
  let format_id := default None (data !! "format_id") in
  let filename := default (Some "download"%string) (data !! "filename") in
  if falsy url || falsy format_id then
    (Response 400 {[ "error" := PStr "URL and format_id are required" ]}, m)
  else
    let '(download_id, m') :=
      start_download (default ""%string url) (default ""%string format_id)
                     (of_json filename) time_time now_iso m in
    (Response 200 (<["status" := PStr "started"]> (
                   <["download_id" := PStr download_id]> (
                   <["message" := PStr "Download has been started"]> ∅))), m').

Definition get_download_status (download_id : string) (m : manager)
  : response * manager :=
  let '(l, m') := get_download download_id m in
  let download := default ∅ (objs m' !! l) in
  if negb (dict_truthy download) then
    (Response 404 {[ "error" := PStr "Download not found" ]}, m')
  else (Response 200 download, m').

(** [MediaDownloaderHandler.__init__]: the handler's [download_manager] is
    whatever [DownloadManager()] returns *)
Definition handler_init (env : fs_env) (mkdir_ok : bool) (_instance : class_state)
  : class_state * option manager :=
  DownloadManager_new env mkdir_ok _instance.

(** The server builds a new handler for every request; the handler's
    constructor evaluates [DownloadManager()] and the request is then served
    on the instance it got, which the handler's methods change in place.
    The class attribute [_instance] is the state that outlives the handler.
    When the constructor raises there is no handler and no response. *)
Inductive request :=
| PostDownload (data : body) (time_time now_iso : string)     (* POST /api/download *)
| GetStatus (download_id : string).                           (* GET /api/download/<id> *)

(** [do_POST] and [do_GET] on the two paths that reach the manager *)
Definition handle (req : request) (download_manager : manager) : response * manager :=
  match req with
  | PostDownload data time_time now_iso =>
      handle_download data time_time now_iso download_manager
  | GetStatus download_id => get_download_status download_id download_manager
  end.

(** the one object after a method has changed it *)
Definition changed_to (m' : manager) (_instance : class_state) : class_state :=
  match _instance with
  | NoInstance => NoInstance
  | Instance initialised _ => Instance initialised m'
  end.

Definition serve (env : fs_env) (mkdir_ok : bool) (req : request) (_instance : class_state)
  : option response * class_state :=
  match handler_init env mkdir_ok _instance with
  | (_instance', Some download_manager) =>
      let '(resp, m') := handle req download_manager in
      (Some resp, changed_to m' _instance')
  | (_instance', None) => (None, _instance')
  end.


(** the manager object of the class, if there is one *)
Definition the_instance (_instance : class_state) : option manager :=
  match _instance with
  | NoInstance => None
  | Instance _ m => Some m
  end.

(* ===================================================================== *)
(** ** Vocabulary of the statements                                        *)
(* ===================================================================== *)

Definition status (r : dict) : pyval := dict_get r "status".
Definition completed_at (r : dict) : pyval := dict_get r "completed_at".

(** position of a status on the path queued, downloading, completed | error *)
Definition status_rank (v : pyval) : option nat :=
  match v with
  | PStr s =>
      if String.eqb s "queued" then Some 0%nat
      else if String.eqb s "downloading" then Some 1%nat
      else if String.eqb s "completed" then Some 2%nat
      else if String.eqb s "error" then Some 2%nat
      else None
  | _ => None
  end.

(** [s'] is [s], or lies strictly further on the path *)
Definition forward (s s' : pyval) : Prop :=
  s' = s \/ exists a b, status_rank s = Some a /\ status_rank s' = Some b /\ (a < b)%nat.

Definition terminal (s : pyval) : Prop := s = PStr "completed" \/ s = PStr "error".

(** the keys the progress hook assigns *)
Definition hook_keys : list string :=
  ["progress"; "downloaded_bytes"; "total_bytes"; "speed"; "eta"]%string.

(** What the record [r] at [l] of a task looks like when the task stands at [p]. *)
Definition pc_ok (p : pc) (l : loc) (r : dict) : Prop :=
  match p with
  | AtStart => status r = PStr "queued" /\ completed_at r = PNone
  | InEngine l' | AtStatusCompleted l' =>
      l' = l /\ status r = PStr "downloading" /\ completed_at r = PNone
  | AtProgress100 l' | AtCompletedAt l' =>
      l' = l /\ status r = PStr "completed" /\ completed_at r = PNone
  | AtError l' _ | AtErrorCompletedAt l' =>
      l' = l /\ status r = PStr "error" /\ completed_at r = PNone
  | Returned => terminal (status r) /\ exists iso, completed_at r = PStr iso
  end.

(** The invariant of the runs in which every id is handed out once: each
    task has its own registered record, in the state its position implies. *)
Record inv (m : manager) : Prop := Inv {
  inv_task : forall n t, executor m !! n = Some t ->
    exists l r, downloads m !! task_id t = Some l /\ objs m !! l = Some r /\ pc_ok (task_pc t) l r;
  inv_ids : NoDup (task_id <$> executor m);
  inv_inj : forall x y l, downloads m !! x = Some l -> downloads m !! y = Some l -> x = y;
  inv_reg : forall x l, downloads m !! x = Some l ->
    exists n t, executor m !! n = Some t /\ task_id t = x
}.

(** *** Concrete inputs used below *)

Definition env0 : fs_env := FsEnv "/home/user" (fun _ => None).

Definition manager0 : manager := _init env0.

(** a dict literal *)
Definition dict_of (kvs : list (string * pyval)) : dict := list_to_map kvs.

(** the manager after one [start_download]; the job's id is ["e56aa17c"]
    and its record is the object [1] *)
Definition one_job : manager :=
  snd (start_download "https://example.com/v" "137" (PStr "clip")
                      "1730000000.25" "2024-10-27T03:33:20" manager0).

(** the record of the job of [one_job] *)
Definition one_job_record : dict :=
  new_record "e56aa17c" "https://example.com/v" "137" (PStr "clip") "2024-10-27T03:33:20".

Definition half_event : dict :=
  dict_of [("status", PStr "downloading"); ("downloaded_bytes", PInt 50);
           ("total_bytes", PInt 100)]%string.

(** an event whose estimate of the total has been overtaken *)
Definition over_event : dict :=
  dict_of [("status", PStr "downloading"); ("downloaded_bytes", PInt 150);
           ("total_bytes_estimate", PInt 100)]%string.

(** the job of [one_job] with its progress at 88 *)
Definition at_88 : manager := setitem 1%positive "progress" (PInt 88) one_job.

(** an event that carries no total: [total_bytes] is zero, no estimate *)
Definition blind_event : dict :=
  dict_of [("status", PStr "downloading"); ("downloaded_bytes", PInt 10);
           ("total_bytes", PInt 0)]%string.

(** an event with every field, and a later one with the byte count only *)
Definition full_event : dict :=
  dict_of [("status", PStr "downloading"); ("downloaded_bytes", PInt 50);
           ("total_bytes", PInt 100); ("speed", PInt 2048); ("eta", PInt 30)]%string.

Definition sparse_event : dict :=
  dict_of [("status", PStr "downloading"); ("downloaded_bytes", PInt 60)]%string.

(** a request body whose filename is the empty string *)
Definition empty_filename_body : body :=
  list_to_map [("url", Some "https://example.com/v"); ("format_id", Some "137");
               ("filename", Some "")]%string.

(* ===================================================================== *)
(** ** The rest of [app.py] that reaches the manager                       *)
(* ===================================================================== *)

(** *** The safe filename of [_download_worker]

    Characters are ASCII here: for a character outside ASCII [str.isalnum]
    consults the Unicode database, which is not part of the embedding, so
    the statements about [safe_filename] are about ASCII filenames. *)

Definition is_ascii (c : ascii) : bool := (nat_of_ascii c <? 128)%nat.

(** [c.isalnum()] on ASCII *)
Definition isalnum (c : ascii) : bool :=
  let n := nat_of_ascii c in
  ((48 <=? n) && (n <=? 57) || (65 <=? n) && (n <=? 90) || (97 <=? n) && (n <=? 122))%nat.

(** [c.isalnum() or c in (' ', '-', '_', '.')] *)
Definition keeps (c : ascii) : bool :=
  isalnum c || Ascii.eqb c " " || Ascii.eqb c "-" || Ascii.eqb c "_" || Ascii.eqb c ".".

(** [c.isspace()] on ASCII: tab to carriage return, the four separators, space *)
Definition isspace (c : ascii) : bool :=
  let n := nat_of_ascii c in
  ((9 <=? n) && (n <=? 13) || (28 <=? n) && (n <=? 31) || (n =? 32))%nat.

(** [''.join(c for c in s if f(c))] *)
Fixpoint join_if (f : ascii -> bool) (s : string) : string :=
  match s with
  | EmptyString => EmptyString
  | String c rest => if f c then String c (join_if f rest) else join_if f rest
  end.

(** [s.rstrip()] *)
Fixpoint rstrip (s : string) : string :=
  match s with
  | EmptyString => EmptyString
  | String c rest =>
      match rstrip rest with
      | EmptyString => if isspace c then EmptyString else String c EmptyString
      | r => String c r
      end
  end.

(** every character of [s] satisfies [f] *)
Fixpoint all_chars (f : ascii -> bool) (s : string) : bool :=
  match s with
  | EmptyString => true
  | String c rest => f c && all_chars f rest
  end.

(** the last character of [s], if any *)
Fixpoint last_char (s : string) : option ascii :=
  match s with
  | EmptyString => None
  | String c EmptyString => Some c
  | String _ rest => last_char rest
  end.

(** lines 144-147; [timestamp] is [datetime.now().strftime("%Y%m%d_%H%M%S")] *)
Definition safe_filename (filename timestamp : string) : string :=
  let safe := rstrip (join_if keeps filename) in
  if String.eqb safe "" then ("download_" +:+ timestamp)%string else safe.

(** on the record's [filename]: iterating over anything but a string raises *)
Definition safe_filename_of (filename : pyval) (timestamp : string) : option string :=
  match filename with
  | PStr s => Some (safe_filename s timestamp)
  | _ => None
  end.

(** *** [save_settings] and [handle_settings]

    The settings files are a map from a path to the JSON object stored
    there. [write_ok] is false when opening the file for writing raises,
    [mkdir_ok] is false when creating the new directory raises. *)

Definition save_settings (settings : dict) (write_ok mkdir_ok : bool)
    (files : gmap string dict) (m : manager) : bool * gmap string dict * manager :=
  if write_ok then
    let files' := <[settings_file m := settings]> files in
    match dict_get_default settings "download_path" (PStr (download_dir m)) with
    | PStr new_path =>
        (mkdir_ok, files',
         Manager (downloads m) (objs m) (executor m) new_path (settings_file m))
    | _ => (false, files', m)               (* Path(new_path) raises *)
    end
  else (false, files, m).

Definition handle_settings (data : dict) (write_ok mkdir_ok : bool)
    (files : gmap string dict) (m : manager) : response * gmap string dict * manager :=
  let '(success, files', m') := save_settings data write_ok mkdir_ok files m in
  if success : bool then
    (Response 200 (<["status" := PStr "success"]> (
                   <["message" := PStr "Settings saved successfully"]> ∅)), files', m')
  else
    (Response 500 (<["status" := PStr "error"]> (
                   <["message" := PStr "Failed to save settings"]> ∅)), files', m').

(** what a start of the process finds on disk *)
Definition env_of (home_dir : string) (files : gmap string dict) : fs_env :=
  FsEnv home_dir (fun path => files !! path).

(** *** [do_GET] *)

(** [s.startswith(p)] and [s[n:]] *)
Definition startswith (p s : string) : bool := String.prefix p s.
Definition slice_from (n : nat) (s : string) : string :=
  substring n (String.length s - n) s.

Inductive reply :=
| Html                                   (* serve_html() *)
| SendError (code : Z) (message : string)
| Json (r : response)
| ServeFile (quoted : string).           (* serve_download_file(unquote(quoted)) *)

(** [path] is [urlparse(self.path).path] *)
Definition do_GET (path : string) (m : manager) : reply * manager :=
  if String.eqb path "/" then (Html, m)
  else if String.eqb path "/favicon.ico" then (SendError 404 "Not Found", m)
  else if startswith "/api/download/" path then
    let '(r, m') := get_download_status (slice_from 14 path) m in (Json r, m')
  else if startswith "/download/" path then (ServeFile (slice_from 10 path), m)
  else if startswith "/api/" path then (SendError 404 "API endpoint not found", m)
  else (SendError 404 "Not Found", m).

(** *** Vocabulary of the further statements *)

(** the fields of a job record that are set at creation only *)
Definition creation_keys : list string :=
  ["id"; "url"; "format_id"; "filename"; "started_at"]%string.

Definition is_hex_digit (c : ascii) : bool :=
  let n := nat_of_ascii c in
  ((48 <=? n) && (n <=? 57) || (97 <=? n) && (n <=? 102))%nat.

(** an event of a transfer whose size the engine does not know *)
Definition no_total (d : dict) : Prop :=
  d !! "status" = Some (PStr "downloading") /\
  truthy (dict_get d "total_bytes") = false /\
  truthy (dict_get d "total_bytes_estimate") = false.

(** the record once the worker has found (or not) the file *)
Definition located (found : option string) (r : dict) : dict :=
  match found with
  | Some actual_file => <["filepath" := PStr actual_file]> r
  | None => r
  end.

(** the engine calls the hook of task [n] on each event in turn *)
Definition hook_calls (n : nat) (ds : list dict) : list action :=
  (fun d => Worker n (Hook d)) <$> ds.

(** *** Runs used below *)

Definition start_clip : action :=
  StartDownload "https://example.com/v" "137" (PStr "clip")
                "1730000000.25" "2024-10-27T03:33:20".

(** the same url and format at the same clock reading, another filename *)
Definition start_clip_again : action :=
  StartDownload "https://example.com/v" "137" (PStr "clip (1)")
                "1730000000.25" "2024-10-27T03:33:20".

(** task [n] from its first statement to the assignment of the status *)
Definition to_completed (n : nat) : list action :=
  [Worker n (Next ""); Worker n (EngineReturns None); Worker n (Next "")].

(** the two assignments that follow *)
Definition to_returned (n : nat) : list action :=
  [Worker n (Next ""); Worker n (Next "2024-10-27T03:35:00")].

(** the state a run from [manager0] ends in *)
Definition after (acts : list action) : manager := default manager0 (run_distinct acts manager0).

(** the record at [l] in a state *)
Definition record_at (l : loc) (m : manager) : dict := default ∅ (objs m !! l).

(** [one_job] once its worker has started, and the job's record then *)
Definition downloading_job : manager := after [start_clip; Worker 0 (Next "")].

Definition downloading_record : dict := <["status" := PStr "downloading"]> one_job_record.

(** the state a run from [m] ends in, ids handed out twice allowed *)
Definition after_from (m : manager) (acts : list action) : manager := default m (run acts m).

(** [one_job]'s id handed out again, both tasks run to the end, the
    second one starting last *)
Definition reuse_run : list action :=
  start_clip_again :: to_completed 0 ++ to_returned 0 ++ to_completed 1 ++ to_returned 1.

Definition saved_settings : dict :=
  dict_of [("download_path", PStr "/srv/media"); ("max_concurrent_downloads", PInt 2)]%string.

Example md5_empty : Md5.hexdigest "" = "d41d8cd98f00b204e9800998ecf8427e"%string.
Proof. vm_compute. reflexivity. Qed.

Example md5_abc : Md5.hexdigest "abc" = "900150983cd24fb0d6963f7d28e17f72"%string.
Proof. vm_compute. reflexivity. Qed.

Example md5_two_blocks :
  Md5.hexdigest "aaaaaaaaaaaaaaaaaaaaaaaaaaaaaaaaaaaaaaaaaaaaaaaaaaaaaaaaaaaaaaaaaaaaaaaaaaaaaaaaaaaaaaaaaaaaaaaaaaaaaaaaaaaaaaaaaaaaaaa"
  = "8a7bd0732ed6a28ce75f6dabc90e1613"%string.
Proof. vm_compute. reflexivity. Qed.

(* ===================================================================== *)
(** ** The progress hook                                                   *)
(* ===================================================================== *)

Section ProgressHook.

Variables (download_id : string) (d : dict) (m : manager) (l : loc) (download : dict).

(** the event is a 'downloading' one and the job's record is registered *)
Hypothesis Hstatus : d !! "status" = Some (PStr "downloading").
Hypothesis Hreg : downloads m !! download_id = Some l.
Hypothesis Hobj : objs m !! l = Some download.
Hypothesis Hrec : dict_truthy download = true.

Lemma hook_downloading :
  hook download_id d m
  = (download' ← hook_record d download; Some (with_objs (<[l := download']> (objs m)) m)).
Proof using Hstatus Hreg Hobj Hrec.
  unfold hook. rewrite Hstatus. simpl. rewrite Hreg, Hobj, Hrec. reflexivity.
Qed.

Lemma hook_stores r' :
  hook_record d download = Some r' ->
  exists m', hook download_id d m = Some m' /\ objs m' !! l = Some r'.
Proof using Hstatus Hreg Hobj Hrec.
  intros Hr. rewrite hook_downloading, Hr. simpl.
  eexists. split; [reflexivity|]. destruct m; simpl. apply lookup_insert_eq.
Qed.

End ProgressHook.

(** the record the hook leaves when it has computed the progress [p] *)
Lemma hook_record_assigns d download :
  forall known p,
    (if truthy (py_or (dict_get d "total_bytes") (dict_get d "total_bytes_estimate"))
     then py_gt (py_or (dict_get d "total_bytes") (dict_get d "total_bytes_estimate")) (PInt 0)
     else Some false) = Some known ->
    (if known
     then q ← py_truediv (dict_get_default d "downloaded_bytes" (PInt 0))
                (py_or (dict_get d "total_bytes") (dict_get d "total_bytes_estimate"));
          py_mul q (PInt 100)
     else s ← py_add (dict_get_default download "progress" (PInt 0)) (PInt 10);
          py_min s (PInt 90)) = Some p ->
    exists r', hook_record d download = Some r' /\ r' !! "progress" = Some p.
Proof.
  intros known p Hk Hp. unfold hook_record. rewrite Hk. cbn [mbind option_bind].
  rewrite Hp. cbn [mbind option_bind]. eexists. split; [reflexivity|].
  rewrite !lookup_insert_ne by done. apply lookup_insert_eq.
Qed.

Lemma hundred_as_float : float_of_int 100 = Some 100%float.
Proof. vm_compute. reflexivity. Qed.

Lemma ten_as_float : float_of_int 10 = Some 10%float.
Proof. vm_compute. reflexivity. Qed.

(** a quotient is a float, and so is a float times 100 *)
Lemma percent_is_float a b p :
  (q ← py_truediv a b; py_mul q (PInt 100)) = Some p -> exists f, p = PFloat f.
Proof.
  intros H. destruct (py_truediv a b) as [q|] eqn:Hq; cbn in H; [|discriminate].
  assert (exists x, q = PFloat x) as [x ->].
  { unfold py_truediv in Hq.
    destruct a as [|x|x|x], b as [|y|y|y]; cbn in Hq; try discriminate;
      repeat match type of Hq with
             | context [int_truediv ?u ?v] => destruct (int_truediv u v); cbn in Hq
             | context [float_of_int ?u] => destruct (float_of_int u); cbn in Hq
             | context [PrimFloat.eqb ?u ?v] => destruct (PrimFloat.eqb u v)
             end; try discriminate; injection Hq as <-; eauto. }
  unfold py_mul in H. cbn in H. rewrite hundred_as_float in H. cbn in H.
  injection H as <-. eauto.
Qed.

(** C1 (as amended): on a 'downloading' event whose total, [total_bytes] if
    truthy and [total_bytes_estimate] otherwise, is above zero, the hook
    stores as the job's progress the float [(downloaded_bytes / total) * 100]
    as binary64 arithmetic gives it, quotient and product each rounded, with
    no clamping; for two [int] byte counts that is the correctly rounded
    quotient times 100.0. The hook raises exactly when that expression does
    ([downloaded_bytes] no number, or an [int] beyond the range of a float). *)
Theorem hook_progress_known_total download_id d m l download total :
  d !! "status" = Some (PStr "downloading") ->
  downloads m !! download_id = Some l ->
  objs m !! l = Some download ->
  dict_truthy download = true ->
  py_or (dict_get d "total_bytes") (dict_get d "total_bytes_estimate") = total ->
  truthy total = true -> py_gt total (PInt 0) = Some true ->
  (forall p,
     (q ← py_truediv (dict_get_default d "downloaded_bytes" (PInt 0)) total;
      py_mul q (PInt 100)) = Some p ->
     (exists f, p = PFloat f) /\
     exists m' r', hook download_id d m = Some m' /\ objs m' !! l = Some r' /\
       r' !! "progress" = Some p) /\
  (forall n t q,
     dict_get_default d "downloaded_bytes" (PInt 0) = PInt n -> total = PInt t ->
     int_truediv n t = Some q ->
     exists m' r', hook download_id d m = Some m' /\ objs m' !! l = Some r' /\
       r' !! "progress" = Some (PFloat (q * 100)%float)) /\
  ((q ← py_truediv (dict_get_default d "downloaded_bytes" (PInt 0)) total;
    py_mul q (PInt 100)) = None ->
   hook download_id d m = None).
Proof.
  intros Hs Hl Ho Hr Htot Htruthy Hgt.
  assert (Hstored : forall p,
     (q ← py_truediv (dict_get_default d "downloaded_bytes" (PInt 0)) total;
      py_mul q (PInt 100)) = Some p ->
     exists m' r', hook download_id d m = Some m' /\ objs m' !! l = Some r' /\
       r' !! "progress" = Some p).
  { intros p Hp. subst total.
    destruct (hook_record_assigns d download true p) as (r' & Hrec & Hprog).
    - rewrite Htruthy. exact Hgt.
    - exact Hp.
    - destruct (hook_stores download_id d m l download Hs Hl Ho Hr r' Hrec) as (m' & Hm & Hl').
      exists m', r'. auto. }
  split; [|split].
  - intros p Hp. split; [exact (percent_is_float _ _ _ Hp)|exact (Hstored p Hp)].
  - intros n t q Hn Ht Hq. apply Hstored. rewrite Hn, Ht. unfold py_truediv.
    rewrite Hq. cbn. rewrite hundred_as_float. reflexivity.
  - intros Hnone. rewrite (hook_downloading download_id d m l download Hs Hl Ho Hr).
    unfold hook_record. rewrite Htot, Htruthy, Hgt. cbn [mbind option_bind].
    rewrite Hnone. reflexivity.
Qed.

Lemma hook_progress_known_total_witness :
  (exists f, PFloat 50 = PFloat f) /\
  exists m' r',
    hook "e56aa17c" half_event one_job = Some m' /\ objs m' !! 1%positive = Some r' /\
    r' !! "progress" = Some (PFloat 50).
Proof.
  apply (hook_progress_known_total "e56aa17c" half_event one_job 1%positive
           one_job_record (PInt 100)); reflexivity.
Defined.

(** 50 bytes of 100 give the float 50.0 *)
Example progress_50_of_100 :
  (m' ← hook "e56aa17c" half_event one_job; r' ← objs m' !! 1%positive; r' !! "progress")
  = Some (PFloat 50).
Proof. reflexivity. Qed.

(** the arithmetic is binary64's: 58 of 100 give 57.99999999999999 (written
    in hexadecimal below), one byte
    more than 2^60 of 2^60 gives 100.0, and a byte count beyond the range of
    a float makes the hook raise *)
Example progress_is_rounded :
  (r' ← hook_record (dict_of [("status", PStr "downloading"); ("downloaded_bytes", PInt 58);
                              ("total_bytes", PInt 100)]%string) one_job_record;
   r' !! "progress") = Some (PFloat 0x1.cffffffffffffp+5)
  /\ (r' ← hook_record (dict_of [("status", PStr "downloading");
                                 ("downloaded_bytes", PInt (2 ^ 60 + 1));
                                 ("total_bytes", PInt (2 ^ 60))]%string) one_job_record;
      r' !! "progress") = Some (PFloat 100)
  /\ hook_record (dict_of [("status", PStr "downloading");
                           ("downloaded_bytes", PInt (2 ^ 1024));
                           ("total_bytes", PInt 1)]%string) one_job_record = None.
Proof. split; [|split]; vm_compute; reflexivity. Qed.

(** C1 (counterexample): 150 bytes received against an estimated total of
    100 give the progress 150.0, outside [0, 100]. *)
Lemma hook_progress_above_100 :
  (m' ← hook "e56aa17c" over_event one_job; r' ← objs m' !! 1%positive; r' !! "progress")
  = Some (PFloat 150)
  /\ (150 <=? 100)%float = false.
Proof. split; reflexivity. Qed.

Lemma falsy_or a b : truthy a = false -> truthy b = false -> truthy (py_or a b) = false.
Proof. intros Ha Hb. unfold py_or. rewrite Ha. exact Hb. Qed.

(** [min(s, 90)] is not above 90 *)
Lemma py_min_90 s v : py_min s (PInt 90) = Some v -> py_gt v (PInt 90) = Some false.
Proof.
  unfold py_min, py_gt. destruct (py_lt (PInt 90) s) as [[|]|] eqn:Hlt; cbn; try discriminate;
    intros H; injection H as <-; [reflexivity|exact Hlt].
Qed.

(** C3: on a 'downloading' event with no total (neither [total_bytes] nor
    [total_bytes_estimate] is present and non-zero) the hook sets the
    progress to [min(previous progress + 10, 90)], which is never above 90:
    for an [int] progress [p] that is the [int] [min(p + 10, 90)], for a
    float progress [f] it is 90 when the binary64 sum [f + 10.0] is above 90
    and that sum otherwise. *)
Theorem hook_progress_unknown_total download_id d m l download :
  d !! "status" = Some (PStr "downloading") ->
  downloads m !! download_id = Some l ->
  objs m !! l = Some download ->
  dict_truthy download = true ->
  truthy (dict_get d "total_bytes") = false ->
  truthy (dict_get d "total_bytes_estimate") = false ->
  (exists p, dict_get_default download "progress" (PInt 0) = PInt p) \/
  (exists f, dict_get_default download "progress" (PInt 0) = PFloat f) ->
  exists m' r' v,
    hook download_id d m = Some m' /\ objs m' !! l = Some r' /\
    r' !! "progress" = Some v /\
    py_gt v (PInt 90) = Some false /\
    (forall p, dict_get_default download "progress" (PInt 0) = PInt p ->
       v = PInt (Z.min (p + 10) 90)) /\
    (forall f, dict_get_default download "progress" (PInt 0) = PFloat f ->
       exists above, py_gt (PFloat (f + 10)%float) (PInt 90) = Some above /\
         v = if above : bool then PInt 90 else PFloat (f + 10)%float).
Proof.
  intros Hs Hl Ho Hr Ha Hb Hprev.
  assert (Hv : exists v,
    (s ← py_add (dict_get_default download "progress" (PInt 0)) (PInt 10);
     py_min s (PInt 90)) = Some v /\
    (forall p, dict_get_default download "progress" (PInt 0) = PInt p ->
       v = PInt (Z.min (p + 10) 90)) /\
    (forall f, dict_get_default download "progress" (PInt 0) = PFloat f ->
       exists above, py_gt (PFloat (f + 10)%float) (PInt 90) = Some above /\
         v = if above : bool then PInt 90 else PFloat (f + 10)%float)).
  { destruct Hprev as [[p ->]|[f ->]].
    - exists (PInt (Z.min (p + 10) 90)). split; [|split].
      + cbn. f_equal. destruct (Z.ltb_spec 90 (p + 10)).
        * rewrite Z.min_r by lia. reflexivity.
        * rewrite Z.min_l by lia. reflexivity.
      + intros p' H. injection H as <-. reflexivity.
      + intros f H. discriminate.
    - unfold py_add. cbn [to_float mbind option_bind]. rewrite ten_as_float.
      cbn [mbind option_bind]. unfold py_min, py_gt.
      destruct (py_lt (PInt 90) (PFloat (f + 10)%float)) as [above|] eqn:Hlt;
        [|cbn in Hlt; discriminate].
      cbn [mbind option_bind]. eexists. split; [reflexivity|]. split.
      + intros p H. discriminate.
      + intros f' H. injection H as <-. exists above. split; [exact Hlt|reflexivity]. }
  destruct Hv as (v & Hv & Hint & Hfloat).
  destruct (hook_record_assigns d download false v) as (r' & Hrec & Hprog).
  - rewrite (falsy_or _ _ Ha Hb). reflexivity.
  - exact Hv.
  - destruct (hook_stores download_id d m l download Hs Hl Ho Hr r' Hrec) as (m' & Hm & Hl').
    exists m', r', v. repeat split; try assumption.
    destruct (py_add _ _) as [s|]; cbn in Hv; [|discriminate].
    eapply py_min_90. exact Hv.
Qed.

Lemma hook_progress_unknown_total_witness :
  exists m' r' v,
    hook "e56aa17c" blind_event at_88 = Some m' /\ objs m' !! 1%positive = Some r' /\
    r' !! "progress" = Some v /\
    py_gt v (PInt 90) = Some false /\
    (forall p, dict_get_default (<["progress" := PInt 88]> one_job_record) "progress" (PInt 0)
               = PInt p -> v = PInt (Z.min (p + 10) 90)) /\
    (forall f, dict_get_default (<["progress" := PInt 88]> one_job_record) "progress" (PInt 0)
               = PFloat f ->
       exists above, py_gt (PFloat (f + 10)%float) (PInt 90) = Some above /\
         v = if above : bool then PInt 90 else PFloat (f + 10)%float).
Proof.
  apply (hook_progress_unknown_total "e56aa17c" blind_event at_88 1%positive
           (<["progress" := PInt 88]> one_job_record)); try reflexivity.
  left. exists 88. reflexivity.
Defined.

(** from 88 the progress becomes 90, and from 85 as well *)
Example progress_88_to_90 :
  (m' ← hook "e56aa17c" blind_event at_88; r' ← objs m' !! 1%positive; r' !! "progress")
  = Some (PInt 90).
Proof. reflexivity. Qed.

Example progress_85_to_90 :
  (r' ← hook_record blind_event (<["progress" := PInt 85]> one_job_record); r' !! "progress")
  = Some (PInt 90).
Proof. reflexivity. Qed.

Example progress_0_to_10 :
  (m' ← hook "e56aa17c" blind_event one_job; r' ← objs m' !! 1%positive; r' !! "progress")
  = Some (PInt 10).
Proof. reflexivity. Qed.

(** a float progress left by the other branch: 57.99999999999999 (in hexadecimal below)
    becomes 68.0, and 85.5 becomes the int 90 *)
Example progress_from_a_float :
  (r' ← hook_record blind_event (<["progress" := PFloat 0x1.cffffffffffffp+5]> one_job_record);
   r' !! "progress") = Some (PFloat 68)
  /\ (r' ← hook_record blind_event (<["progress" := PFloat 85.5]> one_job_record);
      r' !! "progress") = Some (PInt 90).
Proof. split; vm_compute; reflexivity. Qed.

(** what the hook leaves in the record, whenever it returns *)
Lemma hook_record_fields d download r' :
  hook_record d download = Some r' ->
  r' !! "downloaded_bytes" = Some (dict_get_default d "downloaded_bytes" (PInt 0)) /\
  r' !! "total_bytes"
    = Some (py_or (dict_get d "total_bytes") (dict_get d "total_bytes_estimate")) /\
  r' !! "speed" = Some (dict_get d "speed") /\
  r' !! "eta" = Some (dict_get d "eta") /\
  (forall k, k ∉ hook_keys -> r' !! k = download !! k).
Proof.
  unfold hook_record. intros H.
  destruct (if truthy _ then _ else _) as [known|]; simpl in H; [|discriminate].
  destruct (if known then _ else _) as [progress|]; simpl in H; [|discriminate].
  injection H as <-.
  repeat split.
  - rewrite !lookup_insert_ne by done. apply lookup_insert_eq.
  - rewrite !lookup_insert_ne by done. apply lookup_insert_eq.
  - rewrite !lookup_insert_ne by done. apply lookup_insert_eq.
  - apply lookup_insert_eq.
  - intros k Hk. unfold hook_keys in Hk. rewrite !not_elem_of_cons in Hk.
    destruct Hk as (? & ? & ? & ? & ? & _).
    rewrite !lookup_insert_ne by congruence. reflexivity.
Qed.

(** C6 (as amended): a 'downloading' event overwrites the four fields
    whether or not it carries them: [downloaded_bytes] becomes the event's
    value or 0, [total_bytes] the event's [total_bytes] if truthy and its
    [total_bytes_estimate] (or [None]) otherwise, [speed] and [eta] the
    event's values or [None]; only the keys the hook does not assign keep
    what was recorded. *)
Theorem hook_overwrites_fields download_id d m m' l download :
  d !! "status" = Some (PStr "downloading") ->
  downloads m !! download_id = Some l ->
  objs m !! l = Some download ->
  dict_truthy download = true ->
  hook download_id d m = Some m' ->
  exists r', objs m' !! l = Some r' /\
    r' !! "downloaded_bytes" = Some (dict_get_default d "downloaded_bytes" (PInt 0)) /\
    r' !! "total_bytes"
      = Some (py_or (dict_get d "total_bytes") (dict_get d "total_bytes_estimate")) /\
    r' !! "speed" = Some (dict_get d "speed") /\
    r' !! "eta" = Some (dict_get d "eta") /\
    (forall k, k ∉ hook_keys -> r' !! k = download !! k).
Proof.
  intros Hs Hl Ho Hr Hm.
  rewrite (hook_downloading download_id d m l download Hs Hl Ho Hr) in Hm.
  destruct (hook_record d download) as [r'|] eqn:Hrec; simpl in Hm; [|discriminate].
  injection Hm as <-. exists r'. split.
  - destruct m; simpl. apply lookup_insert_eq.
  - apply hook_record_fields. exact Hrec.
Qed.

Lemma hook_overwrites_fields_witness :
  exists m' r', hook "e56aa17c" sparse_event one_job = Some m' /\
    objs m' !! 1%positive = Some r' /\
    r' !! "downloaded_bytes" = Some (dict_get_default sparse_event "downloaded_bytes" (PInt 0)) /\
    r' !! "total_bytes"
      = Some (py_or (dict_get sparse_event "total_bytes")
                    (dict_get sparse_event "total_bytes_estimate")) /\
    r' !! "speed" = Some (dict_get sparse_event "speed") /\
    r' !! "eta" = Some (dict_get sparse_event "eta") /\
    (forall k, k ∉ hook_keys -> r' !! k = one_job_record !! k).
Proof.
  destruct (hook "e56aa17c" sparse_event one_job) as [m'|] eqn:Hm;
    [|vm_compute in Hm; discriminate].
  destruct (hook_overwrites_fields "e56aa17c" sparse_event one_job m' 1%positive
              one_job_record) as (r' & Hr');
    try exact Hm; try (vm_compute; reflexivity).
  exists m', r'. split; [reflexivity | exact Hr'].
Defined.

(** C6 (counterexample): after an event that reported a total, a speed and
    an ETA, an event that carries only the byte count erases all three. *)
Lemma sparse_event_erases_fields :
  (m1 ← hook "e56aa17c" full_event one_job; r ← objs m1 !! 1%positive;
   Some (r !! "total_bytes", r !! "speed", r !! "eta"))
  = Some (Some (PInt 100), Some (PInt 2048), Some (PInt 30))
  /\
  (m1 ← hook "e56aa17c" full_event one_job; m2 ← hook "e56aa17c" sparse_event m1;
   r ← objs m2 !! 1%positive; Some (r !! "total_bytes", r !! "speed", r !! "eta"))
  = Some (Some PNone, Some PNone, Some PNone).
Proof. split; vm_compute; reflexivity. Qed.

(* ===================================================================== *)
(** ** [start_download] and the request handlers                           *)
(* ===================================================================== *)

Lemma fresh_loc_unused (o : gmap loc dict) : o !! fresh (dom o) = None.
Proof. apply not_elem_of_dom. apply is_fresh. Qed.

(** C5 (as amended): the handler rejects a request whose [url] or
    [format_id] is missing, null or empty with status 400, creating no job
    and leaving the manager as it was; when both are present the request is
    accepted whatever the filename, the empty string included (a missing
    filename defaults to 'download'), and the job is registered under the
    id returned. [start_download] itself validates nothing. *)
Theorem handle_download_validates_url_and_format data time_time now_iso m :
  (falsy (default None (data !! "url")) = true \/
   falsy (default None (data !! "format_id")) = true ->
     handle_download data time_time now_iso m
     = (Response 400 {[ "error" := PStr "URL and format_id are required" ]}, m))
  /\
  (forall u f,
     data !! "url" = Some (Some u) -> u <> ""%string ->
     data !! "format_id" = Some (Some f) -> f <> ""%string ->
     let filename := of_json (default (Some "download"%string) (data !! "filename")) in
     let m' := snd (start_download u f filename time_time now_iso m) in
     handle_download data time_time now_iso m
     = (Response 200 (<["status" := PStr "started"]> (
                      <["download_id" := PStr (make_id u f time_time)]> (
                      <["message" := PStr "Download has been started"]> ∅))), m')
     /\ exists l, downloads m' !! make_id u f time_time = Some l
          /\ objs m' !! l = Some (new_record (make_id u f time_time) u f filename now_iso)).
Proof.
  split.
  - intros H. unfold handle_download.
    assert (falsy (default None (data !! "url"))
            || falsy (default None (data !! "format_id")) = true) as ->
      by (apply orb_true_iff; exact H).
    reflexivity.
  - intros u f Hu Hune Hf Hfne. simpl. unfold handle_download. rewrite Hu, Hf. simpl.
    assert (String.eqb u "" = false) as -> by (apply (proj2 (String.eqb_neq _ _)); exact Hune).
    assert (String.eqb f "" = false) as -> by (apply (proj2 (String.eqb_neq _ _)); exact Hfne).
    simpl. split; [reflexivity|].
    exists (fresh (dom (objs m))). split; apply lookup_insert_eq.
Qed.

(** C5 (counterexample): a request with an empty filename is answered 200
    and its job is created. *)
Lemma empty_filename_accepted :
  resp_status (fst (handle_download empty_filename_body "1730000000.25"
                                    "2024-10-27T03:33:20" manager0)) = 200
  /\ (l ← downloads (snd (handle_download empty_filename_body "1730000000.25"
                                          "2024-10-27T03:33:20" manager0)) !! "e56aa17c";
      r ← objs (snd (handle_download empty_filename_body "1730000000.25"
                                     "2024-10-27T03:33:20" manager0)) !! l;
      Some (r !! "filename", r !! "status"))
     = Some (Some (PStr ""), Some (PStr "queued")).
Proof. split; vm_compute; reflexivity. Qed.

(** C7 (as amended): the id returned is the first eight hex digits of the
    MD5 of url, format_id and the clock reading put end to end; the
    filename and the registry play no part in it, so two calls with the
    same url, format_id and clock reading return the same id. The record is
    a new object stored under that id: an id the registry does not hold
    adds one entry and leaves the others alone, an id it holds already has
    its entry replaced, and the registry never holds two entries for an id. *)
Theorem start_download_id url format_id filename time_time now_iso m :
  let download_id := substring 0 8 (Md5.hexdigest (url +:+ format_id +:+ time_time)) in
  let l := fresh (dom (objs m)) in
  let m' := snd (start_download url format_id filename time_time now_iso m) in
  fst (start_download url format_id filename time_time now_iso m) = download_id /\
  (forall filename' now_iso' m0,
     fst (start_download url format_id filename' time_time now_iso' m0) = download_id) /\
  objs m !! l = None /\
  downloads m' !! download_id = Some l /\
  objs m' !! l = Some (new_record download_id url format_id filename now_iso) /\
  (forall x, x <> download_id -> downloads m' !! x = downloads m !! x) /\
  (downloads m !! download_id = None -> size (downloads m') = S (size (downloads m))) /\
  (is_Some (downloads m !! download_id) -> size (downloads m') = size (downloads m)).
Proof.
  simpl. repeat split.
  - apply fresh_loc_unused.
  - apply lookup_insert_eq.
  - apply lookup_insert_eq.
  - intros x Hx. apply lookup_insert_ne. unfold make_id. congruence.
  - intros Hnew. apply map_size_insert_None. exact Hnew.
  - intros Hold. apply map_size_insert_Some. exact Hold.
Qed.

(** C7 (counterexample): two calls with the same url and format_id at the
    same clock reading return the same id, and the second insert replaces
    the first job's record in the registry, which still has one entry. *)
Lemma same_id_twice :
  fst (start_download "https://example.com/v" "137" (PStr "clip")
                      "1730000000.25" "2024-10-27T03:33:20" manager0)
  = fst (start_download "https://example.com/v" "137" (PStr "clip")
                        "1730000000.25" "2024-10-27T03:33:20" one_job)
  /\ downloads one_job !! "e56aa17c" = Some 1%positive
  /\ downloads (snd (start_download "https://example.com/v" "137" (PStr "clip")
                                    "1730000000.25" "2024-10-27T03:33:20" one_job))
       !! "e56aa17c" = Some 2%positive
  /\ size (downloads (snd (start_download "https://example.com/v" "137" (PStr "clip")
                                          "1730000000.25" "2024-10-27T03:33:20" one_job)))
     = 1%nat.
Proof. split; [|split; [|split]]; vm_compute; reflexivity. Qed.

(** C9: for an id the registry does not hold, [get_download] returns a new
    empty dict, which is no job record, and the handler answers 404 with
    'Download not found'; the registry, the tasks and every object that
    existed are as before. *)
Theorem get_download_unknown download_id m :
  downloads m !! download_id = None ->
  exists l m',
    get_download download_id m = (l, m') /\
    objs m !! l = None /\ objs m' !! l = Some ∅ /\
    downloads m' = downloads m /\ executor m' = executor m /\
    (forall l' r, objs m !! l' = Some r -> objs m' !! l' = Some r) /\
    get_download_status download_id m
    = (Response 404 {[ "error" := PStr "Download not found" ]}, m').
Proof.
  intros Hnone. pose proof (fresh_loc_unused (objs m)) as Hfresh.
  exists (fresh (dom (objs m))), (with_objs (<[fresh (dom (objs m)) := ∅]> (objs m)) m).
  unfold get_download_status, get_download. rewrite Hnone.
  destruct m as [dl ob ex dd sf]; simpl in *.
  repeat split.
  - exact Hfresh.
  - apply lookup_insert_eq.
  - intros l' r Hl'. rewrite lookup_insert_ne; [exact Hl'|]. congruence.
  - rewrite lookup_insert_eq. reflexivity.
Qed.

Lemma get_download_unknown_witness :
  exists l m',
    get_download "0badc0de" one_job = (l, m') /\
    objs one_job !! l = None /\ objs m' !! l = Some ∅ /\
    downloads m' = downloads one_job /\ executor m' = executor one_job /\
    (forall l' r, objs one_job !! l' = Some r -> objs m' !! l' = Some r) /\
    get_download_status "0badc0de" one_job
    = (Response 404 {[ "error" := PStr "Download not found" ]}, m').
Proof. apply (get_download_unknown "0badc0de" one_job). vm_compute. reflexivity. Defined.

(** a known id is answered 200 with the record *)
Example get_download_status_known :
  resp_status (fst (get_download_status "e56aa17c" one_job)) = 200
  /\ resp_body (fst (get_download_status "e56aa17c" one_job)) = one_job_record.
Proof. split; vm_compute; reflexivity. Qed.

(** writes through a reference, the hook and the moves of a worker leave
    the registry and the task list alone *)
Lemma setitem_frame l k v m :
  downloads (setitem l k v m) = downloads m /\ executor (setitem l k v m) = executor m.
Proof. unfold setitem. destruct (objs m !! l); split; reflexivity. Qed.

Lemma hook_frame download_id d m m' :
  hook download_id d m = Some m' -> downloads m' = downloads m /\ executor m' = executor m.
Proof.
  unfold hook. intros H.
  destruct (d !! "status") as [s|]; simpl in H; [|discriminate].
  destruct (py_eq_str s "downloading"); [|injection H as <-; split; reflexivity].
  destruct (downloads m !! download_id) as [l|]; [|injection H as <-; split; reflexivity].
  destruct (objs m !! l) as [r|]; [|injection H as <-; split; reflexivity].
  destruct (dict_truthy r); [|injection H as <-; split; reflexivity].
  destruct (hook_record d r) as [r'|]; simpl in H; [|discriminate].
  injection H as <-. split; reflexivity.
Qed.

Lemma worker_frame i t m p m' :
  _download_worker i t m = Some (p, m') ->
  downloads m' = downloads m /\ executor m' = executor m.
Proof.
  unfold _download_worker. intros H.
  destruct (task_pc t) as [|l0|l0|l0|l0|l0 e0|l0|], i as [iso|d|[f|]|e]; try discriminate;
    try (injection H as <- <-; first [apply setitem_frame | split; reflexivity]).
  - destruct (bool_decide _); [|discriminate].
    destruct (downloads m !! task_id t); injection H as <- <-;
      first [apply setitem_frame | split; reflexivity].
  - destruct (hook (task_id t) d m) as [m1|] eqn:Hh; simpl in H; [|discriminate].
    injection H as <- <-. eapply hook_frame. exact Hh.
Qed.

(** C4 (as amended): for a registered id [get_download] returns the
    reference the registry holds, not a copy: a write through the returned
    value is a write to the registry's record, and after any move of a
    worker the value returned earlier still is the registry's record, with
    whatever the worker has stored in it. *)
Theorem get_download_returns_registry_object download_id m l r :
  downloads m !! download_id = Some l ->
  objs m !! l = Some r ->
  get_download download_id m = (l, m) /\
  (forall k v,
     objs (setitem l k v m) !! l = Some (<[k := v]> r) /\
     get_download download_id (setitem l k v m) = (l, setitem l k v m)) /\
  (forall n i m', step (Worker n i) m = Some m' -> get_download download_id m' = (l, m')).
Proof.
  intros Hl Ho. split; [|split].
  - unfold get_download. rewrite Hl. reflexivity.
  - intros k v. unfold setitem. rewrite Ho. destruct m as [dl ob ex dd sf]; simpl in *.
    split; [apply lookup_insert_eq|]. unfold get_download. simpl. rewrite Hl. reflexivity.
  - intros n i m' Hstep. simpl in Hstep.
    destruct (executor m !! n) as [t|]; simpl in Hstep; [|discriminate].
    destruct (_download_worker i t m) as [[p m1]|] eqn:Hw; simpl in Hstep; [|discriminate].
    injection Hstep as <-. apply worker_frame in Hw as [Hd _].
    unfold get_download. simpl. rewrite Hd, Hl. reflexivity.
Qed.

Lemma get_download_returns_registry_object_witness :
  get_download "e56aa17c" one_job = (1%positive, one_job) /\
  (forall k v,
     objs (setitem 1%positive k v one_job) !! 1%positive = Some (<[k := v]> one_job_record) /\
     get_download "e56aa17c" (setitem 1%positive k v one_job)
     = (1%positive, setitem 1%positive k v one_job)) /\
  (forall n i m', step (Worker n i) one_job = Some m' ->
     get_download "e56aa17c" m' = (1%positive, m')).
Proof.
  apply (get_download_returns_registry_object "e56aa17c" one_job 1%positive one_job_record);
    vm_compute; reflexivity.
Defined.

(** C4 (counterexample): the caller of [get_download] overwrites a field of
    the value it was handed, and the next status request reports the
    overwritten field; and a record read as 'queued' through the returned
    value reads 'downloading' through the same value once the worker has
    started. *)
Lemma returned_record_is_shared :
  fst (get_download "e56aa17c" one_job) = 1%positive
  /\ snd (get_download "e56aa17c" one_job) = one_job
  /\ resp_body (fst (get_download_status "e56aa17c"
                       (setitem (fst (get_download "e56aa17c" one_job))
                                "status" (PStr "tampered") one_job)))
       !! "status" = Some (PStr "tampered")
  /\ (r ← objs one_job !! fst (get_download "e56aa17c" one_job); r !! "status")
     = Some (PStr "queued")
  /\ (m' ← step (Worker 0 (Next "")) one_job;
      r ← objs m' !! fst (get_download "e56aa17c" one_job); r !! "status")
     = Some (PStr "downloading").
Proof. split; [|split; [|split; [|split]]]; vm_compute; reflexivity. Qed.

(* ===================================================================== *)
(** ** The singleton                                                       *)
(* ===================================================================== *)





(** a job started through one handler is found by a later handler, even
    when the settings have changed in between *)
Example job_survives_new_handler :
  let env1 := FsEnv "/home/user" (fun _ => Some (dict_of [("download_path", PStr "/srv/media")]%string)) in
  option_map resp_status
    (fst (serve env1 true (GetStatus "e56aa17c")
       (snd (serve env0 true
               (PostDownload empty_filename_body "1730000000.25" "2024-10-27T03:33:20")
               NoInstance)))) = Some 200.
Proof. vm_compute. reflexivity. Qed.

(** when the default directory cannot be created the first request gets no
    response; the next one is served on the object that was left, which has
    the default directory and an empty registry *)
Example first_construction_fails :
  fst (serve env0 false (GetStatus "e56aa17c") NoInstance) = None
  /\ option_map resp_status
       (fst (serve env0 true (GetStatus "e56aa17c")
               (snd (serve env0 false (GetStatus "e56aa17c") NoInstance)))) = Some 404
  /\ the_instance (snd (serve env0 false (GetStatus "e56aa17c") NoInstance))
     = Some (interrupted_init env0).
Proof. split; [|split]; reflexivity. Qed.
(* ===================================================================== *)
(** ** The life of a job record                                            *)
(* ===================================================================== *)

Lemma forward_refl s : forward s s.
Proof. left. reflexivity. Qed.

Lemma forward_trans s1 s2 s3 : forward s1 s2 -> forward s2 s3 -> forward s1 s3.
Proof.
  intros [->|(a & b & Ha & Hb & Hab)] [->|(b' & c & Hb' & Hc & Hbc)].
  - left; reflexivity.
  - right. exists b', c. auto.
  - right. exists a, b. auto.
  - right. exists a, c. rewrite Hb in Hb'. injection Hb' as <-. repeat split; auto. lia.
Qed.

Lemma forward_terminal s s' : terminal s -> forward s s' -> s' = s.
Proof.
  intros Ht [->|(a & b & Ha & Hb & Hab)]; [reflexivity|].
  exfalso. destruct Ht as [-> | ->]; simpl in Ha; injection Ha as <-;
    destruct s' as [| | |s']; simpl in Hb; try discriminate;
    repeat (destruct (String.eqb s' _); [injection Hb as <-; lia|]); discriminate.
Qed.

Lemma forward_not_requeued s' : forward (PStr "downloading") s' -> s' <> PStr "queued".
Proof.
  intros [->|(a & b & Ha & Hb & Hab)]; [discriminate|].
  intros ->. simpl in Ha, Hb. injection Ha as <-. injection Hb as <-. lia.
Qed.

Lemma status_insert v r : status (<["status" := v]> r) = v.
Proof. unfold status, dict_get. rewrite lookup_insert_eq. reflexivity. Qed.

Lemma status_insert_ne k v r : k <> "status"%string -> status (<[k := v]> r) = status r.
Proof. intros H. unfold status, dict_get. rewrite lookup_insert_ne by exact H. reflexivity. Qed.

Lemma completed_at_insert v r : completed_at (<["completed_at" := v]> r) = v.
Proof. unfold completed_at, dict_get. rewrite lookup_insert_eq. reflexivity. Qed.

Lemma completed_at_insert_ne k v r :
  k <> "completed_at"%string -> completed_at (<[k := v]> r) = completed_at r.
Proof.
  intros H. unfold completed_at, dict_get. rewrite lookup_insert_ne by exact H. reflexivity.
Qed.

(** the hook assigns neither the status nor the completion time *)
Lemma hook_record_status d r r' :
  hook_record d r = Some r' -> status r' = status r /\ completed_at r' = completed_at r.
Proof.
  intros H. apply hook_record_fields in H as (_ & _ & _ & _ & Hk).
  unfold status, completed_at, dict_get. split; rewrite Hk; try reflexivity;
    unfold hook_keys; rewrite !not_elem_of_cons; repeat split; try discriminate;
    apply not_elem_of_nil.
Qed.

Lemma with_objs_id m l r : objs m !! l = Some r -> with_objs (<[l := r]> (objs m)) m = m.
Proof. intros H. destruct m; unfold with_objs; simpl in *. rewrite insert_id by exact H. reflexivity. Qed.

Lemma setitem_at l k v m r :
  objs m !! l = Some r -> setitem l k v m = with_objs (<[l := <[k := v]> r]> (objs m)) m.
Proof. intros H. unfold setitem. rewrite H. reflexivity. Qed.

(** a task that has not returned has a record without completion time *)
Lemma pc_ok_running p l r : pc_ok p l r -> p <> Returned -> completed_at r = PNone.
Proof. destruct p; simpl; intros H Hp; try tauto. Qed.

Lemma pc_ok_completed_at p l r :
  pc_ok p l r ->
  (completed_at r = PNone \/ exists iso, completed_at r = PStr iso) /\
  (completed_at r <> PNone -> terminal (status r)).
Proof.
  destruct p; simpl; intros H; (split; [|intros Hc]); tauto.
Qed.

(** the shape of every case of [worker_move]: the record [rec] replaces [r] *)
Ltac worker_writes Hl Ho Hca rec :=
  exists rec; split; [exact Hl|]; split; [exact Ho|];
  split; [first [apply setitem_at; exact Ho | symmetry; apply with_objs_id; exact Ho]|];
  split; [exact Hca|]; simpl;
  rewrite ?status_insert, ?completed_at_insert;
  rewrite ?status_insert_ne, ?completed_at_insert_ne by discriminate.

Lemma forward_started : forward (PStr "queued") (PStr "downloading").
Proof. right. exists 0%nat, 1%nat. repeat split. lia. Qed.

Lemma forward_finished s :
  terminal s -> forward (PStr "downloading") s.
Proof. intros [-> | ->]; right; exists 1%nat, 2%nat; repeat split; lia. Qed.

(** What a move of a worker does, in a state that satisfies the invariant:
    it rewrites the record of its own task, which had no completion time,
    and the status goes forward. *)
Lemma worker_move m n t i p' m' :
  inv m -> executor m !! n = Some t ->
  _download_worker i t m = Some (p', m') ->
  exists l r r',
    downloads m !! task_id t = Some l /\ objs m !! l = Some r /\
    m' = with_objs (<[l := r']> (objs m)) m /\
    completed_at r = PNone /\ pc_ok p' l r' /\ forward (status r) (status r').
Proof.
  intros Hinv Ht Hw.
  destruct (inv_task m Hinv n t Ht) as (l & r & Hl & Ho & Hpc).
  exists l, r. unfold _download_worker in Hw.
  destruct (task_pc t) as [|l0|l0|l0|l0|l0 e0|l0|], i as [iso|d|[f|]|e];
    try discriminate; simpl in Hpc.
  - (* first statement *)
    destruct Hpc as [Hst Hca].
    destruct (bool_decide _); [|discriminate]. rewrite Hl in Hw. injection Hw as <- <-.
    worker_writes Hl Ho Hca (<["status" := PStr "downloading"]> r).
    rewrite Hst. auto using forward_started.
  - (* the hook *)
    destruct Hpc as (-> & Hst & Hca).
    destruct (hook (task_id t) d m) as [m1|] eqn:Hh; simpl in Hw; [|discriminate].
    injection Hw as <- <-. unfold hook in Hh.
    destruct (d !! "status") as [s|]; simpl in Hh; [|discriminate].
    destruct (py_eq_str s "downloading");
      [|injection Hh as <-; worker_writes Hl Ho Hca r; auto using forward_refl].
    rewrite Hl, Ho in Hh.
    destruct (dict_truthy r);
      [|injection Hh as <-; worker_writes Hl Ho Hca r; auto using forward_refl].
    destruct (hook_record d r) as [r'|] eqn:Hrec; simpl in Hh; [|discriminate].
    injection Hh as <-. apply hook_record_status in Hrec as [Hs' Hc'].
    exists r'. simpl. rewrite Hs', Hc'. repeat split; auto using forward_refl.
  - (* the engine returned, a file was found *)
    destruct Hpc as (-> & Hst & Hca). injection Hw as <- <-.
    worker_writes Hl Ho Hca (<["filepath" := PStr f]> r). auto using forward_refl.
  - (* the engine returned, no file *)
    destruct Hpc as (-> & Hst & Hca). injection Hw as <- <-.
    worker_writes Hl Ho Hca r. auto using forward_refl.
  - (* an exception *)
    destruct Hpc as (-> & Hst & Hca). injection Hw as <- <-.
    worker_writes Hl Ho Hca (<["status" := PStr "error"]> r).
    rewrite Hst. repeat split; auto. apply forward_finished. right; reflexivity.
  - (* status = 'completed' *)
    destruct Hpc as (-> & Hst & Hca). injection Hw as <- <-.
    worker_writes Hl Ho Hca (<["status" := PStr "completed"]> r).
    rewrite Hst. repeat split; auto. apply forward_finished. left; reflexivity.
  - (* progress = 100 *)
    destruct Hpc as (-> & Hst & Hca). injection Hw as <- <-.
    worker_writes Hl Ho Hca (<["progress" := PInt 100]> r). auto using forward_refl.
  - (* completed_at, after a success *)
    destruct Hpc as (-> & Hst & Hca). injection Hw as <- <-.
    worker_writes Hl Ho Hca (<["completed_at" := PStr iso]> r).
    repeat split; eauto using forward_refl. left. exact Hst.
  - (* error = str(e) *)
    destruct Hpc as (-> & Hst & Hca). injection Hw as <- <-.
    worker_writes Hl Ho Hca (<["error" := PStr e0]> r). auto using forward_refl.
  - (* completed_at, after a failure *)
    destruct Hpc as (-> & Hst & Hca). injection Hw as <- <-.
    worker_writes Hl Ho Hca (<["completed_at" := PStr iso]> r).
    repeat split; eauto using forward_refl. right. exact Hst.
Qed.

(** the invariant survives a task rewriting its own record *)
Lemma inv_update m n t l r r' p' :
  inv m -> executor m !! n = Some t ->
  downloads m !! task_id t = Some l -> objs m !! l = Some r ->
  pc_ok p' l r' ->
  inv (with_executor (<[n := Task (task_id t) p']> (executor m))
                     (with_objs (<[l := r']> (objs m)) m)).
Proof.
  intros [Htask Hids Hinj Hreg] Ht Hl Ho Hpc.
  destruct m as [dl ob ex dd sf]; simpl in *.
  assert (Hn : (n < length ex)%nat) by (eapply lookup_lt_Some; exact Ht).
  assert (Hfmap : task_id <$> <[n := Task (task_id t) p']> ex = task_id <$> ex).
  { rewrite list_fmap_insert. simpl. apply list_insert_id.
    rewrite list_lookup_fmap, Ht. reflexivity. }
  constructor; simpl.
  - intros n' t' Ht'.
    destruct (decide (n' = n)) as [->|Hne].
    + rewrite list_lookup_insert_eq in Ht' by exact Hn. injection Ht' as <-. simpl.
      exists l, r'. rewrite lookup_insert_eq. auto.
    + rewrite list_lookup_insert_ne in Ht' by congruence.
      destruct (Htask n' t' Ht') as (l2 & r2 & Hl2 & Ho2 & Hpc2).
      exists l2, r2. repeat split; try assumption.
      rewrite lookup_insert_ne; [exact Ho2|].
      intros <-. apply Hne.
      assert (Hid : task_id t' = task_id t) by (eapply Hinj; eassumption).
      eapply NoDup_lookup; [exact Hids| |]; rewrite list_lookup_fmap;
        [rewrite Ht'; reflexivity | rewrite Ht; simpl; congruence].
  - rewrite Hfmap. exact Hids.
  - exact Hinj.
  - intros x l1 Hx. destruct (Hreg x l1 Hx) as (n1 & t1 & Ht1 & Hid1).
    destruct (decide (n1 = n)) as [->|Hne].
    + exists n, (Task (task_id t) p'). rewrite list_lookup_insert_eq by exact Hn.
      split; [reflexivity|]. simpl. congruence.
    + exists n1, t1. rewrite list_lookup_insert_ne by congruence. auto.
Qed.

Lemma new_record_fresh download_id url format_id filename now_iso :
  status (new_record download_id url format_id filename now_iso) = PStr "queued"
  /\ completed_at (new_record download_id url format_id filename now_iso) = PNone.
Proof. split; reflexivity. Qed.

(** the invariant survives a [start_download] that hands out a new id *)
Lemma inv_start url format_id filename time_time now_iso m :
  inv m -> downloads m !! make_id url format_id time_time = None ->
  inv (snd (start_download url format_id filename time_time now_iso m)).
Proof.
  intros [Htask Hids Hinj Hreg] Hnew.
  pose proof (fresh_loc_unused (objs m)) as Hfresh.
  destruct m as [dl ob ex dd sf]; simpl in *.
  set (x := make_id url format_id time_time) in *.
  set (lf := fresh (dom ob)) in *.
  assert (Hold : forall n t, ex !! n = Some t -> task_id t <> x).
  { intros n t Ht Heq. destruct (Htask n t Ht) as (l & r & Hl & _). congruence. }
  constructor; simpl.
  - intros n t Ht. apply lookup_app_Some in Ht as [Ht|[Hlen Ht]].
    + destruct (Htask n t Ht) as (l & r & Hl & Ho & Hpc).
      exists l, r. rewrite lookup_insert_ne by (apply not_eq_sym; eapply Hold; exact Ht).
      rewrite lookup_insert_ne by congruence. auto.
    + apply list_lookup_singleton_Some in Ht as [_ <-]. simpl.
      exists lf, (new_record x url format_id filename now_iso).
      rewrite !lookup_insert_eq. repeat split.
  - rewrite fmap_app. simpl. apply NoDup_app. repeat split.
    + exact Hids.
    + intros y Hy Hy'. apply list_elem_of_singleton in Hy' as ->.
      apply list_elem_of_fmap in Hy as (t & Heq & Hin).
      apply list_elem_of_lookup in Hin as (n & Ht). eapply Hold; eauto.
    + apply NoDup_singleton.
  - intros a b l Ha Hb.
    assert (Hreg' : forall y, dl !! y = Some lf -> False).
    { intros y Hy. destruct (Hreg y lf Hy) as (n & t & Ht & Hid).
      destruct (Htask n t Ht) as (l2 & r2 & Hl2 & Ho2 & _). congruence. }
    destruct (decide (a = x)) as [->|Hax], (decide (b = x)) as [->|Hbx]; try reflexivity.
    + rewrite lookup_insert_eq in Ha. rewrite lookup_insert_ne in Hb by congruence.
      exfalso. apply (Hreg' b). congruence.
    + rewrite lookup_insert_eq in Hb. rewrite lookup_insert_ne in Ha by congruence.
      exfalso. apply (Hreg' a). congruence.
    + rewrite lookup_insert_ne in Ha, Hb by congruence. eapply Hinj; eassumption.
  - intros y l Hy. destruct (decide (y = x)) as [->|Hyx].
    + exists (length ex), (Task x AtStart). split; [|reflexivity].
      rewrite lookup_app_r by lia. rewrite Nat.sub_diag. reflexivity.
    + rewrite lookup_insert_ne in Hy by congruence.
      destruct (Hreg y l Hy) as (n & t & Ht & Hid).
      exists n, t. split; [|exact Hid]. apply lookup_app_l_Some. exact Ht.
Qed.

(** the invariant survives a [get_download] *)
Lemma inv_get download_id m : inv m -> inv (snd (get_download download_id m)).
Proof.
  intros Hinv. unfold get_download.
  destruct (downloads m !! download_id) as [l|]; [exact Hinv|].
  pose proof (fresh_loc_unused (objs m)) as Hfresh.
  destruct Hinv as [Htask Hids Hinj Hreg].
  destruct m as [dl ob ex dd sf]; simpl in *.
  constructor; simpl; try assumption.
  intros n t Ht. destruct (Htask n t Ht) as (l & r & Hl & Ho & Hpc).
  exists l, r. rewrite lookup_insert_ne by congruence. auto.
Qed.

(** One step, when no id is handed out twice: the invariant is kept, every
    record stays in the store, its status goes forward and a completion
    time that is set stays as it is. *)
Lemma step_spec a m m' :
  inv m -> issues_new_id a m = true -> step a m = Some m' ->
  inv m' /\
  forall l r, objs m !! l = Some r ->
    exists r', objs m' !! l = Some r' /\ forward (status r) (status r') /\
      (completed_at r <> PNone -> completed_at r' = completed_at r).
Proof.
  intros Hinv Hnew Hstep. destruct a as [url format_id filename time_time now_iso|download_id|n i].
  - (* start_download *)
    simpl in Hnew, Hstep. apply bool_decide_eq_true in Hnew. injection Hstep as <-.
    split; [apply inv_start; assumption|].
    intros l r Ho. exists r. pose proof (fresh_loc_unused (objs m)) as Hfresh.
    simpl. rewrite lookup_insert_ne by congruence.
    repeat split; auto using forward_refl.
  - (* get_download *)
    simpl in Hstep. injection Hstep as <-.
    split; [apply inv_get; assumption|].
    intros l r Ho. exists r. unfold get_download.
    destruct (downloads m !! download_id); simpl.
    + repeat split; auto using forward_refl.
    + pose proof (fresh_loc_unused (objs m)) as Hfresh.
      rewrite lookup_insert_ne by congruence. repeat split; auto using forward_refl.
  - (* a move of task n *)
    simpl in Hstep.
    destruct (executor m !! n) as [t|] eqn:Ht; simpl in Hstep; [|discriminate].
    destruct (_download_worker i t m) as [[p m1]|] eqn:Hw; simpl in Hstep; [|discriminate].
    injection Hstep as <-.
    destruct (worker_move m n t i p m1 Hinv Ht Hw)
      as (l & r & r' & Hl & Ho & -> & Hca & Hpc & Hfw).
    split.
    + apply (inv_update m n t l r r' p Hinv Ht Hl Ho Hpc).
    + intros l1 r1 Ho1. simpl. destruct (decide (l1 = l)) as [->|Hne].
      * exists r'. rewrite lookup_insert_eq. rewrite Ho in Ho1. injection Ho1 as <-.
        repeat split; [exact Hfw|]. intros Hc. congruence.
      * exists r1. rewrite lookup_insert_ne by congruence.
        repeat split; auto using forward_refl.
Qed.

Lemma run_distinct_spec acts : forall m m',
  inv m -> run_distinct acts m = Some m' ->
  inv m' /\
  forall l r, objs m !! l = Some r ->
    exists r', objs m' !! l = Some r' /\ forward (status r) (status r') /\
      (completed_at r <> PNone -> completed_at r' = completed_at r).
Proof.
  induction acts as [|a rest IH]; intros m m' Hinv Hrun; simpl in Hrun.
  - injection Hrun as <-. split; [exact Hinv|].
    intros l r Ho. exists r. repeat split; auto using forward_refl.
  - destruct (issues_new_id a m) eqn:Hnew; [|discriminate].
    destruct (step a m) as [m1|] eqn:Hstep; simpl in Hrun; [|discriminate].
    destruct (step_spec a m m1 Hinv Hnew Hstep) as [Hinv1 Hrec1].
    destruct (IH m1 m' Hinv1 Hrun) as [Hinv' Hrec'].
    split; [exact Hinv'|].
    intros l r Ho. destruct (Hrec1 l r Ho) as (r1 & Ho1 & Hf1 & Hc1).
    destruct (Hrec' l r1 Ho1) as (r' & Ho' & Hf' & Hc').
    exists r'. repeat split; [exact Ho'|eapply forward_trans; eassumption|].
    intros Hc. rewrite <- (Hc1 Hc). apply Hc'. rewrite (Hc1 Hc). exact Hc.
Qed.

Lemma inv_init env : inv (_init env).
Proof.
  assert (H : downloads (_init env) = ∅ /\ executor (_init env) = []).
  { unfold _init, load_settings. simpl.
    destruct (read_settings env _) as [s|]; [|split; reflexivity].
    destruct (dict_get_default s _ _); split; reflexivity. }
  destruct H as [Hd He].
  constructor; rewrite ?Hd, ?He.
  - intros n t Ht. rewrite lookup_nil in Ht. discriminate.
  - simpl. apply NoDup_nil_2.
  - intros x y l Hx. rewrite lookup_empty in Hx. discriminate.
  - intros x l Hx. rewrite lookup_empty in Hx. discriminate.
Qed.

(** C2 (as amended): in a run in which no id is handed out twice, so that
    every record has one worker, no sequence of calls, worker moves and
    progress events moves the status of a record anywhere but forward along
    queued, downloading, completed | error: a record that is completed or
    in error keeps its status, and a downloading one is never queued again. *)
Theorem status_moves_forward env acts acts' m m' l r r' :
  run_distinct acts (_init env) = Some m ->
  run_distinct acts' m = Some m' ->
  objs m !! l = Some r -> objs m' !! l = Some r' ->
  forward (status r) (status r') /\
  (terminal (status r) -> status r' = status r) /\
  (status r = PStr "downloading" -> status r' <> PStr "queued").
Proof.
  intros Hrun Hrun' Ho Ho'.
  destruct (run_distinct_spec acts _ m (inv_init env) Hrun) as [Hinv _].
  destruct (run_distinct_spec acts' m m' Hinv Hrun') as [_ Hrec].
  destruct (Hrec l r Ho) as (r1 & Ho1 & Hfw & _).
  rewrite Ho' in Ho1. injection Ho1 as <-.
  split; [exact Hfw|]. split.
  - intros Hterm. eapply forward_terminal; eassumption.
  - intros Hd. rewrite Hd in Hfw. apply forward_not_requeued. exact Hfw.
Qed.

Lemma status_moves_forward_witness :
  forward (status (record_at 1 (after [start_clip; Worker 0 (Next "")])))
          (status (record_at 1 (after (start_clip :: to_completed 0 ++ to_returned 0)))) /\
  (terminal (status (record_at 1 (after [start_clip; Worker 0 (Next "")]))) ->
   status (record_at 1 (after (start_clip :: to_completed 0 ++ to_returned 0)))
   = status (record_at 1 (after [start_clip; Worker 0 (Next "")]))) /\
  (status (record_at 1 (after [start_clip; Worker 0 (Next "")])) = PStr "downloading" ->
   status (record_at 1 (after (start_clip :: to_completed 0 ++ to_returned 0)))
   <> PStr "queued").
Proof.
  apply (status_moves_forward env0 [start_clip; Worker 0 (Next "")]
           ([Worker 0 (EngineReturns None); Worker 0 (Next "")] ++ to_returned 0)
           (after [start_clip; Worker 0 (Next "")])
           (after (start_clip :: to_completed 0 ++ to_returned 0)) 1%positive);
    vm_compute; reflexivity.
Defined.

(** C2 (counterexample): two calls with the same url, format and clock
    reading return one id; the second record replaces the first in the
    registry and both tasks work on it. Once the first task has completed
    the record, the first statement of the second task sets its status back
    to 'downloading'. *)
Lemma completed_record_downloading_again :
  (m ← run (start_clip :: start_clip_again :: to_completed 0 ++ to_returned 0) manager0;
   r ← objs m !! 2%positive; Some (status r, completed_at r))
  = Some (PStr "completed", PStr "2024-10-27T03:35:00")
  /\
  (m ← run (start_clip :: start_clip_again :: to_completed 0 ++ to_returned 0
            ++ [Worker 1 (Next "")]) manager0;
   r ← objs m !! 2%positive; Some (status r))
  = Some (PStr "downloading").
Proof. split; vm_compute; reflexivity. Qed.

(** C8 (as amended): in a run in which no id is handed out twice, the
    completion time of a registered record is [None] or a timestamp, and it
    is set only if the status is completed or error; the converse holds once
    the worker has returned, for the worker assigns the status first and the
    completion time last, so in between a record has a terminal status and
    no completion time. A completion time that is set is never changed. *)
Theorem completed_at_lifecycle env acts m :
  run_distinct acts (_init env) = Some m ->
  (forall download_id l r,
     downloads m !! download_id = Some l -> objs m !! l = Some r ->
     (completed_at r = PNone \/ exists iso, completed_at r = PStr iso) /\
     (completed_at r <> PNone -> terminal (status r))) /\
  (forall n t, executor m !! n = Some t -> task_pc t = Returned ->
     exists l r iso, downloads m !! task_id t = Some l /\ objs m !! l = Some r /\
       terminal (status r) /\ completed_at r = PStr iso) /\
  (forall acts' m' l r r',
     run_distinct acts' m = Some m' ->
     objs m !! l = Some r -> objs m' !! l = Some r' ->
     completed_at r <> PNone -> completed_at r' = completed_at r).
Proof.
  intros Hrun.
  destruct (run_distinct_spec acts _ m (inv_init env) Hrun) as [Hinv _].
  split; [|split].
  - intros download_id l r Hl Ho.
    destruct (inv_reg m Hinv download_id l Hl) as (n & t & Ht & Hid).
    destruct (inv_task m Hinv n t Ht) as (l1 & r1 & Hl1 & Ho1 & Hpc).
    rewrite Hid, Hl in Hl1. injection Hl1 as <-. rewrite Ho in Ho1. injection Ho1 as <-.
    eapply pc_ok_completed_at. exact Hpc.
  - intros n t Ht Hret.
    destruct (inv_task m Hinv n t Ht) as (l & r & Hl & Ho & Hpc).
    rewrite Hret in Hpc. simpl in Hpc. destruct Hpc as (Hterm & iso & Hiso).
    exists l, r, iso. auto.
  - intros acts' m' l r r' Hrun' Ho Ho' Hset.
    destruct (run_distinct_spec acts' m m' Hinv Hrun') as [_ Hrec].
    destruct (Hrec l r Ho) as (r1 & Ho1 & _ & Hkeep).
    rewrite Ho' in Ho1. injection Ho1 as <-. apply Hkeep. exact Hset.
Qed.

Lemma completed_at_lifecycle_witness :
  (forall download_id l r,
     downloads (after (start_clip :: to_completed 0 ++ to_returned 0)) !! download_id = Some l ->
     objs (after (start_clip :: to_completed 0 ++ to_returned 0)) !! l = Some r ->
     (completed_at r = PNone \/ exists iso, completed_at r = PStr iso) /\
     (completed_at r <> PNone -> terminal (status r))) /\
  (forall n t,
     executor (after (start_clip :: to_completed 0 ++ to_returned 0)) !! n = Some t ->
     task_pc t = Returned ->
     exists l r iso,
       downloads (after (start_clip :: to_completed 0 ++ to_returned 0)) !! task_id t = Some l /\
       objs (after (start_clip :: to_completed 0 ++ to_returned 0)) !! l = Some r /\
       terminal (status r) /\ completed_at r = PStr iso) /\
  (forall acts' m' l r r',
     run_distinct acts' (after (start_clip :: to_completed 0 ++ to_returned 0)) = Some m' ->
     objs (after (start_clip :: to_completed 0 ++ to_returned 0)) !! l = Some r ->
     objs m' !! l = Some r' ->
     completed_at r <> PNone -> completed_at r' = completed_at r).
Proof.
  apply (completed_at_lifecycle env0 (start_clip :: to_completed 0 ++ to_returned 0)).
  vm_compute. reflexivity.
Defined.

(** the run of the witness ends with the job completed and stamped *)
Example finished_job :
  (status (record_at 1 (after (start_clip :: to_completed 0 ++ to_returned 0))),
   completed_at (record_at 1 (after (start_clip :: to_completed 0 ++ to_returned 0))),
   record_at 1 (after (start_clip :: to_completed 0 ++ to_returned 0)) !! "progress")
  = (PStr "completed", PStr "2024-10-27T03:35:00", Some (PInt 100)).
Proof. vm_compute. reflexivity. Qed.

(** C8 (counterexample): after the worker has assigned 'completed' to the
    status and before it assigns the completion time, the record is
    completed and has no completion time. *)
Lemma completed_without_completed_at :
  (m ← run_distinct (start_clip :: to_completed 0) manager0;
   r ← objs m !! 1%positive; Some (status r, completed_at r))
  = Some (PStr "completed", PNone).
Proof. vm_compute. reflexivity. Qed.

(* ===================================================================== *)
(** ** Further properties: the job id                                      *)
(* ===================================================================== *)

Lemma le_bytes_length n x : List.length (Md5.le_bytes n x) = n.
Proof. revert x. induction n as [|n IH]; intros x; simpl; [reflexivity|]. rewrite IH. reflexivity. Qed.

Lemma le_bytes_range n x : Forall (fun b => 0 <= b < 256) (Md5.le_bytes n x).
Proof.
  revert x. induction n as [|n IH]; intros x; simpl; constructor.
  - apply Z.mod_pos_bound. lia.
  - apply IH.
Qed.

Lemma digest_shape msg :
  List.length (Md5.digest msg) = 16%nat /\ Forall (fun b => 0 <= b < 256) (Md5.digest msg).
Proof.
  unfold Md5.digest.
  destruct (fold_left Md5.block _ _) as [[[a b] c] d].
  split.
  - rewrite !length_app, !le_bytes_length. reflexivity.
  - rewrite !Forall_app. repeat split; apply le_bytes_range.
Qed.

Lemma hex_digit_is_hex n : 0 <= n < 16 -> is_hex_digit (Md5.hex_digit n) = true.
Proof.
  intros H. rewrite <- (Z2Nat.id n) by lia.
  assert (Hk : (Z.to_nat n < 16)%nat) by lia.
  revert Hk. generalize (Z.to_nat n) as k. intros k Hk.
  do 16 (destruct k as [|k]; [reflexivity|]). lia.
Qed.

Lemma hex_shape bs :
  Forall (fun b => 0 <= b < 256) bs ->
  String.length (Md5.hex bs) = (2 * List.length bs)%nat /\
  all_chars is_hex_digit (Md5.hex bs) = true.
Proof.
  induction 1 as [|b bs Hb _ [IHl IHc]]; simpl; [split; reflexivity|].
  split; [rewrite IHl; lia|].
  rewrite !hex_digit_is_hex, IHc; [reflexivity| |].
  - apply Z.mod_pos_bound. lia.
  - split; [apply Z.div_pos; lia | apply Z.div_lt_upper_bound; lia].
Qed.

Lemma substring_0_shape f n : forall s,
  (n <= String.length s)%nat -> all_chars f s = true ->
  String.length (substring 0 n s) = n /\ all_chars f (substring 0 n s) = true.
Proof.
  induction n as [|n IH]; intros s Hlen Hall.
  - destruct s; split; reflexivity.
  - destruct s as [|c s]; simpl in *; [lia|].
    apply andb_true_iff in Hall as [Hc Hs].
    destruct (IH s ltac:(lia) Hs) as [IHl IHc].
    rewrite IHl, Hc, IHc. split; reflexivity.
Qed.

(** X1: every id that [start_download] returns has exactly eight
    characters, each a lowercase hexadecimal digit. *)
Theorem download_id_is_8_hex_digits url format_id filename time_time now_iso m :
  String.length (fst (start_download url format_id filename time_time now_iso m)) = 8%nat
  /\ all_chars is_hex_digit (fst (start_download url format_id filename time_time now_iso m))
     = true.
Proof.
  cbn [start_download fst]. unfold make_id, Md5.hexdigest.
  destruct (digest_shape (Md5.encode (url +:+ format_id +:+ time_time))) as [Hlen Hrange].
  destruct (hex_shape _ Hrange) as [Hhl Hhc].
  apply substring_0_shape; [|exact Hhc]. rewrite Hhl, Hlen. lia.
Qed.

(* ===================================================================== *)
(** ** Further properties: starting a job and asking for it                *)
(* ===================================================================== *)

Lemma dict_truthy_lookup (r : dict) k v : r !! k = Some v -> dict_truthy r = true.
Proof.
  intros H. unfold dict_truthy. rewrite bool_decide_eq_false_2; [reflexivity|].
  intros Hsize. apply map_size_empty_iff in Hsize. subst r.
  rewrite lookup_empty in H. discriminate.
Qed.

Lemma new_record_truthy download_id url format_id filename now_iso :
  dict_truthy (new_record download_id url format_id filename now_iso) = true.
Proof. apply (dict_truthy_lookup _ "id" (PStr download_id)). reflexivity. Qed.

(** X2: the id that [start_download] returns is known at once: asking for
    it in the state the call leaves is answered 200 with the record just
    created (status 'queued', progress 0, the url, format and filename of
    the call, no completion time, error or file path), and the question
    changes nothing. *)
Theorem started_job_is_found url format_id filename time_time now_iso m :
  get_download_status (fst (start_download url format_id filename time_time now_iso m))
                      (snd (start_download url format_id filename time_time now_iso m))
  = (Response 200 (new_record (make_id url format_id time_time) url format_id filename now_iso),
     snd (start_download url format_id filename time_time now_iso m))
  /\ status (new_record (make_id url format_id time_time) url format_id filename now_iso)
     = PStr "queued"
  /\ new_record (make_id url format_id time_time) url format_id filename now_iso !! "progress"
     = Some (PInt 0)
  /\ new_record (make_id url format_id time_time) url format_id filename now_iso !! "url"
     = Some (PStr url)
  /\ new_record (make_id url format_id time_time) url format_id filename now_iso !! "filename"
     = Some filename.
Proof.
  split; [|repeat split].
  cbn [start_download fst snd]. unfold get_download_status, get_download.
  cbn [downloads objs with_objs]. rewrite lookup_insert_eq.
  cbn [objs]. rewrite lookup_insert_eq. cbn [default]. unfold id.
  rewrite new_record_truthy. reflexivity.
Qed.

Lemma append_cons c s t : (String c s +:+ t)%string = String c (s +:+ t).
Proof. reflexivity. Qed.

Lemma append_nil t : ("" +:+ t)%string = t.
Proof. reflexivity. Qed.

Lemma substring_whole s : substring 0 (String.length s) s = s.
Proof. induction s as [|c s IH]; simpl; [reflexivity|]. rewrite IH. reflexivity. Qed.

(** X3: a GET of '/api/download/' followed by any text is answered by
    [get_download_status] on exactly that text, whatever characters it
    has; '/api/download' without the final slash is no such request and is
    answered 404 'API endpoint not found'. *)
Theorem do_GET_download_status download_id m :
  do_GET ("/api/download/" +:+ download_id) m
  = (Json (fst (get_download_status download_id m)), snd (get_download_status download_id m))
  /\ do_GET "/api/download" m = (SendError 404 "API endpoint not found", m).
Proof.
  split; [|reflexivity].
  unfold do_GET, startswith, slice_from. rewrite !append_cons, append_nil.
  cbn. rewrite Nat.sub_0_r, substring_whole.
  assert (String.prefix "" download_id = true) as -> by (destruct download_id; reflexivity).
  destruct (get_download_status download_id m) as [r m']. reflexivity.
Qed.

(* ===================================================================== *)
(** ** Further properties: what no step does                               *)
(* ===================================================================== *)

Lemma setitem_keeps l0 k0 v m l r :
  objs m !! l = Some r ->
  exists r', objs (setitem l0 k0 v m) !! l = Some r' /\ forall k, k <> k0 -> r' !! k = r !! k.
Proof.
  intros Ho. unfold setitem. destruct (objs m !! l0) as [r0|] eqn:Ho0.
  - destruct m as [dl ob ex dd sf]; simpl in *.
    destruct (decide (l = l0)) as [->|Hne].
    + rewrite Ho in Ho0. injection Ho0 as <-. exists (<[k0 := v]> r).
      rewrite lookup_insert_eq. split; [reflexivity|].
      intros k Hk. apply lookup_insert_ne. congruence.
    + exists r. rewrite lookup_insert_ne by congruence. auto.
  - exists r. auto.
Qed.

Lemma creation_key_not_written k :
  k ∈ creation_keys ->
  (k ∉ hook_keys) /\ k <> "status"%string /\ k <> "filepath"%string /\
  k <> "progress"%string /\ k <> "completed_at"%string /\ k <> "error"%string.
Proof.
  unfold creation_keys, hook_keys. rewrite !not_elem_of_cons, !elem_of_cons.
  intros [->|[->|[->|[->|[->|H]]]]]; [..|apply elem_of_nil in H; contradiction];
    repeat split; try discriminate; apply not_elem_of_nil.
Qed.

Lemma hook_keeps download_id d m m' l r :
  hook download_id d m = Some m' -> objs m !! l = Some r ->
  exists r', objs m' !! l = Some r' /\ forall k, k ∈ creation_keys -> r' !! k = r !! k.
Proof.
  unfold hook. intros H Ho.
  destruct (d !! "status") as [s|]; simpl in H; [|discriminate].
  destruct (py_eq_str s "downloading"); [|injection H as <-; eauto].
  destruct (downloads m !! download_id) as [l0|]; [|injection H as <-; eauto].
  destruct (objs m !! l0) as [r0|] eqn:Ho0; [|injection H as <-; eauto].
  destruct (dict_truthy r0); [|injection H as <-; eauto].
  destruct (hook_record d r0) as [r0'|] eqn:Hrec; simpl in H; [|discriminate].
  injection H as <-. destruct m as [dl ob ex dd sf]; simpl in *.
  destruct (decide (l = l0)) as [->|Hne].
  - rewrite Ho in Ho0. injection Ho0 as <-. exists r0'.
    rewrite lookup_insert_eq. split; [reflexivity|].
    intros k Hk. apply hook_record_fields in Hrec as (_ & _ & _ & _ & Hframe).
    apply Hframe. apply creation_key_not_written. exact Hk.
  - exists r. rewrite lookup_insert_ne by congruence. auto.
Qed.

Lemma worker_keeps i t m p m' l r :
  _download_worker i t m = Some (p, m') -> objs m !! l = Some r ->
  exists r', objs m' !! l = Some r' /\ forall k, k ∈ creation_keys -> r' !! k = r !! k.
Proof.
  unfold _download_worker. intros H Ho.
  assert (Hset : forall l0 k0 v, k0 ∉ creation_keys ->
            exists r', objs (setitem l0 k0 v m) !! l = Some r' /\
                       forall k, k ∈ creation_keys -> r' !! k = r !! k).
  { intros l0 k0 v Hk0. destruct (setitem_keeps l0 k0 v m l r Ho) as (r' & Hr' & Hsame).
    exists r'. split; [exact Hr'|]. intros k Hk. apply Hsame. congruence. }
  assert (Hnot : forall k0, (forall k, k ∈ creation_keys -> k <> k0) -> k0 ∉ creation_keys).
  { intros k0 Hk0 Hin. exact (Hk0 k0 Hin eq_refl). }
  destruct (task_pc t) as [|l0|l0|l0|l0|l0 e0|l0|], i as [iso|d|[f|]|e]; try discriminate;
    try (injection H as <- <-;
         first [ apply Hset, Hnot; intros k Hk; apply creation_key_not_written in Hk; tauto
               | eauto ]).
  - destruct (bool_decide _); [|discriminate].
    destruct (downloads m !! task_id t); injection H as <- <-; [|eauto].
    apply Hset, Hnot. intros k Hk. apply creation_key_not_written in Hk. tauto.
  - destruct (hook (task_id t) d m) as [m1|] eqn:Hh; simpl in H; [|discriminate].
    injection H as <- <-. eapply hook_keeps; eassumption.
Qed.

Lemma step_keeps a m m' :
  step a m = Some m' ->
  (forall l r, objs m !! l = Some r ->
     exists r', objs m' !! l = Some r' /\ forall k, k ∈ creation_keys -> r' !! k = r !! k) /\
  (forall download_id, is_Some (downloads m !! download_id) ->
     is_Some (downloads m' !! download_id)) /\
  (forall n t, executor m !! n = Some t ->
     exists t', executor m' !! n = Some t' /\ task_id t' = task_id t).
Proof.
  intros Hstep. destruct a as [url format_id filename time_time now_iso|download_id|n i].
  - cbn [step start_download snd] in Hstep. injection Hstep as <-. cbn [objs downloads executor].
    pose proof (fresh_loc_unused (objs m)) as Hfresh. repeat split.
    + intros l r Ho. exists r. rewrite lookup_insert_ne by congruence. auto.
    + intros x Hx. destruct (decide (x = make_id url format_id time_time)) as [->|Hne].
      * rewrite lookup_insert_eq. eauto.
      * rewrite lookup_insert_ne by congruence. exact Hx.
    + intros n t Ht. exists t. split; [|reflexivity]. apply lookup_app_l_Some. exact Ht.
  - cbn [step] in Hstep. injection Hstep as <-. unfold get_download.
    destruct (downloads m !! download_id) as [l0|] eqn:Hd; cbn [snd].
    + repeat split; eauto.
    + pose proof (fresh_loc_unused (objs m)) as Hfresh.
      destruct m as [dl ob ex dd sf]; simpl in *. repeat split; eauto.
      intros l r Ho. exists r. rewrite lookup_insert_ne by congruence. auto.
  - cbn [step] in Hstep.
    destruct (executor m !! n) as [t|] eqn:Ht; simpl in Hstep; [|discriminate].
    destruct (_download_worker i t m) as [[p m1]|] eqn:Hw; simpl in Hstep; [|discriminate].
    injection Hstep as <-. destruct (worker_frame i t m p m1 Hw) as [Hd He].
    cbn [objs downloads executor with_executor]. repeat split.
    + intros l r Ho. eapply worker_keeps; eassumption.
    + intros x Hx. rewrite Hd. exact Hx.
    + intros n' t' Ht'. rewrite He. destruct (decide (n' = n)) as [->|Hne].
      * exists (Task (task_id t) p). rewrite list_lookup_insert_eq
          by (eapply lookup_lt_Some; exact Ht).
        split; [reflexivity|]. simpl. congruence.
      * exists t'. rewrite list_lookup_insert_ne by congruence. auto.
Qed.

Lemma run_keeps acts : forall m m',
  run acts m = Some m' ->
  (forall l r, objs m !! l = Some r ->
     exists r', objs m' !! l = Some r' /\ forall k, k ∈ creation_keys -> r' !! k = r !! k) /\
  (forall download_id, is_Some (downloads m !! download_id) ->
     is_Some (downloads m' !! download_id)) /\
  (forall n t, executor m !! n = Some t ->
     exists t', executor m' !! n = Some t' /\ task_id t' = task_id t).
Proof.
  induction acts as [|a rest IH]; intros m m' Hrun; simpl in Hrun.
  - injection Hrun as <-. repeat split; eauto.
  - destruct (step a m) as [m1|] eqn:Hstep; simpl in Hrun; [|discriminate].
    destruct (step_keeps a m m1 Hstep) as (Ho1 & Hd1 & Ht1).
    destruct (IH m1 m' Hrun) as (Ho2 & Hd2 & Ht2).
    repeat split.
    + intros l r Ho. destruct (Ho1 l r Ho) as (r1 & Hr1 & Hk1).
      destruct (Ho2 l r1 Hr1) as (r2 & Hr2 & Hk2).
      exists r2. split; [exact Hr2|]. intros k Hk. rewrite Hk2, Hk1 by exact Hk. reflexivity.
    + intros x Hx. apply Hd2, Hd1, Hx.
    + intros n t Ht. destruct (Ht1 n t Ht) as (t1 & Ht1' & Hid1).
      destruct (Ht2 n t1 Ht1') as (t2 & Ht2' & Hid2).
      exists t2. split; [exact Ht2'|]. congruence.
Qed.

(** X4: whatever happens afterwards, calls, worker moves and progress
    events in any order and ids handed out twice included, a job record
    stays in the store with the id, url, format, filename and start time it
    was created with. *)
Theorem creation_fields_never_change acts m m' l r :
  run acts m = Some m' ->
  objs m !! l = Some r ->
  exists r', objs m' !! l = Some r' /\
    r' !! "id" = r !! "id" /\ r' !! "url" = r !! "url" /\
    r' !! "format_id" = r !! "format_id" /\ r' !! "filename" = r !! "filename" /\
    r' !! "started_at" = r !! "started_at".
Proof.
  intros Hrun Ho. destruct (run_keeps acts m m' Hrun) as (Hobj & _ & _).
  destruct (Hobj l r Ho) as (r' & Hr' & Hk).
  exists r'. split; [exact Hr'|].
  repeat split; apply Hk; unfold creation_keys; rewrite !elem_of_cons; tauto.
Qed.

Lemma run_distinct_is_run acts : forall m m',
  run_distinct acts m = Some m' -> run acts m = Some m'.
Proof.
  induction acts as [|a rest IH]; intros m m' H; cbn in *; [exact H|].
  destruct (issues_new_id a m); [|discriminate].
  destruct (step a m) as [m1|]; cbn in *; [|discriminate]. apply IH. exact H.
Qed.

Lemma step_keeps_binding a m m' download_id l :
  issues_new_id a m = true -> step a m = Some m' ->
  downloads m !! download_id = Some l -> downloads m' !! download_id = Some l.
Proof.
  intros Hnew Hstep Hl. destruct a as [url format_id filename time_time now_iso|x|n i].
  - cbn in Hnew. apply bool_decide_eq_true in Hnew.
    cbn [step start_download snd] in Hstep. injection Hstep as <-. cbn [downloads].
    rewrite lookup_insert_ne; [exact Hl|]. intros Heq. rewrite Heq in Hnew. congruence.
  - cbn [step] in Hstep. injection Hstep as <-. unfold get_download.
    destruct (downloads m !! x); [exact Hl|]. destruct m; exact Hl.
  - cbn [step] in Hstep.
    destruct (executor m !! n) as [t|]; cbn in Hstep; [|discriminate].
    destruct (_download_worker i t m) as [[p m1]|] eqn:Hw; cbn in Hstep; [|discriminate].
    injection Hstep as <-. destruct (worker_frame i t m p m1 Hw) as [Hd _].
    cbn [downloads with_executor]. rewrite Hd. exact Hl.
Qed.

Lemma run_distinct_keeps_binding acts : forall m m' download_id l,
  run_distinct acts m = Some m' ->
  downloads m !! download_id = Some l -> downloads m' !! download_id = Some l.
Proof.
  induction acts as [|a rest IH]; intros m m' download_id l H Hl; cbn in H.
  - injection H as <-. exact Hl.
  - destruct (issues_new_id a m) eqn:Hnew; [|discriminate].
    destruct (step a m) as [m1|] eqn:Hstep; cbn in H; [|discriminate].
    eapply IH; [exact H|]. eapply step_keeps_binding; eassumption.
Qed.

(** X5: the registry never loses an id: after any run a registered id is
    still registered, and after a run in which no id is handed out twice it
    is still bound to the same record object, which is still in the store
    (an id that is handed out again is bound to the newer record). *)
Theorem registered_ids_stay_registered acts m m' download_id l r :
  downloads m !! download_id = Some l ->
  objs m !! l = Some r ->
  (run acts m = Some m' -> is_Some (downloads m' !! download_id)) /\
  (run_distinct acts m = Some m' ->
     downloads m' !! download_id = Some l /\ is_Some (objs m' !! l)).
Proof.
  intros Hl Ho. split.
  - intros Hrun. destruct (run_keeps acts m m' Hrun) as (_ & Hd & _). apply Hd. eauto.
  - intros Hrun. split.
    + eapply run_distinct_keeps_binding; eassumption.
    + apply run_distinct_is_run in Hrun.
      destruct (run_keeps acts m m' Hrun) as (Hobj & _ & _).
      destruct (Hobj l r Ho) as (r' & Hr' & _). eauto.
Qed.

(* ===================================================================== *)
(** ** Further properties: the worker from the engine's return on          *)
(* ===================================================================== *)

Lemma run_step a rest m m1 : step a m = Some m1 -> run (a :: rest) m = run rest m1.
Proof. intros H. cbn [run]. rewrite H. reflexivity. Qed.

(** a move of task [n] that assigns [download[k] = v] *)
Lemma move_write n i m t l r p k v :
  executor m !! n = Some t -> objs m !! l = Some r ->
  _download_worker i t m = Some (p, setitem l k v m) ->
  exists m1, step (Worker n i) m = Some m1 /\
    executor m1 !! n = Some (Task (task_id t) p) /\
    objs m1 !! l = Some (<[k := v]> r) /\
    downloads m1 = downloads m /\
    (forall l', l' <> l -> objs m1 !! l' = objs m !! l').
Proof.
  intros Ht Ho Hw. cbn [step]. rewrite Ht. cbn. rewrite Hw. cbn.
  eexists. split; [reflexivity|].
  rewrite (setitem_at l k v m r Ho). destruct m as [dl ob ex dd sf]; simpl in *.
  repeat split.
  - apply list_lookup_insert_eq. eapply lookup_lt_Some. exact Ht.
  - apply lookup_insert_eq.
  - intros l' Hl'. apply lookup_insert_ne. congruence.
Qed.

(** a move of task [n] that assigns nothing *)
Lemma move_on n i m t p :
  executor m !! n = Some t ->
  _download_worker i t m = Some (p, m) ->
  exists m1, step (Worker n i) m = Some m1 /\
    executor m1 !! n = Some (Task (task_id t) p) /\
    objs m1 = objs m /\ downloads m1 = downloads m.
Proof.
  intros Ht Hw. cbn [step]. rewrite Ht. cbn. rewrite Hw. cbn.
  eexists. split; [reflexivity|]. destruct m as [dl ob ex dd sf]; simpl in *.
  repeat split. apply list_lookup_insert_eq. eapply lookup_lt_Some. exact Ht.
Qed.

Lemma engine_returns n m t l r found :
  executor m !! n = Some t -> task_pc t = InEngine l -> objs m !! l = Some r ->
  exists m1, step (Worker n (EngineReturns found)) m = Some m1 /\
    executor m1 !! n = Some (Task (task_id t) (AtStatusCompleted l)) /\
    objs m1 !! l = Some (located found r) /\
    downloads m1 = downloads m /\
    (forall l', l' <> l -> objs m1 !! l' = objs m !! l').
Proof.
  intros Ht Hpc Ho. destruct found as [f|]; simpl.
  - apply move_write; try assumption. unfold _download_worker. rewrite Hpc. reflexivity.
  - destruct (move_on n (EngineReturns None) m t (AtStatusCompleted l) Ht) as (m1 & H1 & H2 & H3 & H4).
    { unfold _download_worker. rewrite Hpc. reflexivity. }
    exists m1. rewrite H3. auto.
Qed.

(** X6: once the engine has returned, the four statements that follow take
    the record to its final state whatever it held: the file path if one
    was found, status 'completed', progress 100 and the completion time,
    the task has returned, and no other record and no registry entry has
    changed. *)
Theorem success_path n m t l r found now1 now2 now_iso :
  executor m !! n = Some t -> task_pc t = InEngine l -> objs m !! l = Some r ->
  exists m',
    run [Worker n (EngineReturns found); Worker n (Next now1); Worker n (Next now2);
         Worker n (Next now_iso)] m = Some m' /\
    objs m' !! l = Some (<["completed_at" := PStr now_iso]> (
                         <["progress" := PInt 100]> (
                         <["status" := PStr "completed"]> (located found r)))) /\
    executor m' !! n = Some (Task (task_id t) Returned) /\
    downloads m' = downloads m /\
    (forall l', l' <> l -> objs m' !! l' = objs m !! l').
Proof.
  intros Ht Hpc Ho.
  destruct (engine_returns n m t l r found Ht Hpc Ho) as (m1 & Hs1 & Ht1 & Ho1 & Hd1 & Hf1).
  destruct (move_write n (Next now1) m1 _ l _ (AtProgress100 l) "status" (PStr "completed")
              Ht1 Ho1 eq_refl) as (m2 & Hs2 & Ht2 & Ho2 & Hd2 & Hf2).
  destruct (move_write n (Next now2) m2 _ l _ (AtCompletedAt l) "progress" (PInt 100)
              Ht2 Ho2 eq_refl) as (m3 & Hs3 & Ht3 & Ho3 & Hd3 & Hf3).
  destruct (move_write n (Next now_iso) m3 _ l _ Returned "completed_at" (PStr now_iso)
              Ht3 Ho3 eq_refl) as (m4 & Hs4 & Ht4 & Ho4 & Hd4 & Hf4).
  exists m4.
  rewrite (run_step _ _ _ _ Hs1), (run_step _ _ _ _ Hs2), (run_step _ _ _ _ Hs3),
          (run_step _ _ _ _ Hs4).
  repeat split; try assumption.
  - congruence.
  - intros l' Hl'. rewrite Hf4, Hf3, Hf2, Hf1 by exact Hl'. reflexivity.
Qed.

(** X7: an exception raised in the try block takes the record to status
    'error' with the exception's text and the completion time; progress,
    byte counts and file path are left as they were, the task has returned,
    and no other record and no registry entry has changed. *)
Theorem failure_path n m t l r e now1 now_iso :
  executor m !! n = Some t -> task_pc t = InEngine l -> objs m !! l = Some r ->
  exists m',
    run [Worker n (Raise e); Worker n (Next now1); Worker n (Next now_iso)] m = Some m' /\
    objs m' !! l = Some (<["completed_at" := PStr now_iso]> (
                         <["error" := PStr e]> (
                         <["status" := PStr "error"]> r))) /\
    (forall k, k <> "status"%string -> k <> "error"%string -> k <> "completed_at"%string ->
       (<["completed_at" := PStr now_iso]> (<["error" := PStr e]> (
        <["status" := PStr "error"]> r))) !! k = r !! k) /\
    executor m' !! n = Some (Task (task_id t) Returned) /\
    downloads m' = downloads m /\
    (forall l', l' <> l -> objs m' !! l' = objs m !! l').
Proof.
  intros Ht Hpc Ho.
  destruct (move_write n (Raise e) m t l r (AtError l e) "status" (PStr "error") Ht Ho)
    as (m1 & Hs1 & Ht1 & Ho1 & Hd1 & Hf1).
  { unfold _download_worker. rewrite Hpc. reflexivity. }
  destruct (move_write n (Next now1) m1 _ l _ (AtErrorCompletedAt l) "error" (PStr e)
              Ht1 Ho1 eq_refl) as (m2 & Hs2 & Ht2 & Ho2 & Hd2 & Hf2).
  destruct (move_write n (Next now_iso) m2 _ l _ Returned "completed_at" (PStr now_iso)
              Ht2 Ho2 eq_refl) as (m3 & Hs3 & Ht3 & Ho3 & Hd3 & Hf3).
  exists m3.
  rewrite (run_step _ _ _ _ Hs1), (run_step _ _ _ _ Hs2), (run_step _ _ _ _ Hs3).
  repeat split; try assumption.
  - intros k H1 H2 H3. rewrite !lookup_insert_ne by congruence. reflexivity.
  - congruence.
  - intros l' Hl'. rewrite Hf3, Hf2, Hf1 by exact Hl'. reflexivity.
Qed.

(* ===================================================================== *)
(** ** Further properties: a transfer of unknown size                      *)
(* ===================================================================== *)

Lemma hook_record_no_total d r p :
  no_total d -> r !! "progress" = Some (PInt p) ->
  exists r', hook_record d r = Some r' /\
    r' !! "progress" = Some (PInt (Z.min (p + 10) 90)) /\ status r' = status r.
Proof.
  intros (_ & Ha & Hb) Hp.
  assert (Hrec : hook_record d r
                 = Some (<["eta" := dict_get d "eta"]> (<["speed" := dict_get d "speed"]> (
                         <["total_bytes" := py_or (dict_get d "total_bytes")
                                                  (dict_get d "total_bytes_estimate")]> (
                         <["downloaded_bytes" := dict_get_default d "downloaded_bytes" (PInt 0)]> (
                         <["progress" := PInt (Z.min (p + 10) 90)]> r)))))).
  { unfold hook_record. rewrite (falsy_or _ _ Ha Hb).
    assert (dict_get_default r "progress" (PInt 0) = PInt p) as ->
      by (unfold dict_get_default; rewrite Hp; reflexivity).
    cbn [mbind option_bind py_add]. unfold py_min, py_lt.
    cbn [mbind option_bind].
    destruct (Z.ltb_spec 90 (p + 10)).
    - rewrite Z.min_r by lia. reflexivity.
    - rewrite Z.min_l by lia. reflexivity. }
  eexists. split; [exact Hrec|]. split.
  - rewrite !lookup_insert_ne by done. apply lookup_insert_eq.
  - apply hook_record_status in Hrec as [Hs _]. exact Hs.
Qed.

(** X8: while the engine reports no total, every call of the hook moves
    the progress of the task's record ten points up, to 90 at most: after
    the calls for the events [ds] a progress that was [p], at most 90, is
    [min(p + 10 * len(ds), 90)], still an [int], and the status is as it
    was. *)
Theorem progress_creeps_to_90 n ds : forall m t l r p,
  executor m !! n = Some t -> task_pc t = InEngine l ->
  downloads m !! task_id t = Some l -> objs m !! l = Some r ->
  r !! "progress" = Some (PInt p) -> p <= 90 ->
  Forall no_total ds ->
  exists m' r',
    run (hook_calls n ds) m = Some m' /\ objs m' !! l = Some r' /\
    r' !! "progress" = Some (PInt (Z.min (p + 10 * Z.of_nat (List.length ds)) 90)) /\
    status r' = status r.
Proof.
  induction ds as [|d ds IH]; intros m t l r p Ht Hpc Hl Ho Hp Hle Hall.
  - exists m, r. cbn. repeat split; try assumption.
    rewrite Z.add_0_r, Z.min_l by lia. exact Hp.
  - apply Forall_cons in Hall as [Hd Hall].
    destruct (hook_record_no_total d r p Hd Hp) as (r1 & Hrec & Hp1 & Hs1).
    assert (Hhook : hook (task_id t) d m = Some (with_objs (<[l := r1]> (objs m)) m)).
    { rewrite (hook_downloading (task_id t) d m l r (proj1 Hd) Hl Ho
                 (dict_truthy_lookup r _ _ Hp)), Hrec. reflexivity. }
    assert (Hstep : step (Worker n (Hook d)) m
                    = Some (with_executor (<[n := Task (task_id t) (InEngine l)]> (executor m))
                                          (with_objs (<[l := r1]> (objs m)) m))).
    { cbn [step]. rewrite Ht. cbn. unfold _download_worker. rewrite Hpc, Hhook. reflexivity. }
    set (m1 := with_executor (<[n := Task (task_id t) (InEngine l)]> (executor m))
                             (with_objs (<[l := r1]> (objs m)) m)) in *.
    assert (Ht1 : executor m1 !! n = Some (Task (task_id t) (InEngine l))).
    { subst m1. destruct m as [dl ob ex dd sf]; simpl in *.
      apply list_lookup_insert_eq. eapply lookup_lt_Some. exact Ht. }
    assert (Hl1 : downloads m1 !! task_id t = Some l).
    { subst m1. destruct m as [dl ob ex dd sf]; simpl in *. exact Hl. }
    assert (Ho1 : objs m1 !! l = Some r1).
    { subst m1. destruct m as [dl ob ex dd sf]; simpl. apply lookup_insert_eq. }
    destruct (IH m1 (Task (task_id t) (InEngine l)) l r1 (Z.min (p + 10) 90)
                 Ht1 eq_refl Hl1 Ho1 Hp1 ltac:(lia) Hall)
      as (m' & r' & Hrun & Ho' & Hp' & Hs').
    exists m', r'. unfold hook_calls in *. rewrite fmap_cons.
    rewrite (run_step _ _ _ _ Hstep). split; [exact Hrun|]. split; [exact Ho'|].
    split; [|congruence]. rewrite Hp'. do 2 f_equal.
    cbn [List.length]. lia.
Qed.

(* ===================================================================== *)
(** ** Further properties: the safe filename                               *)
(* ===================================================================== *)

Lemma join_if_all f s : all_chars f (join_if f s) = true.
Proof.
  induction s as [|c s IH]; simpl; [reflexivity|].
  destruct (f c) eqn:Hc; simpl; [rewrite Hc|]; exact IH.
Qed.

Lemma join_if_same f s : all_chars f s = true -> join_if f s = s.
Proof.
  induction s as [|c s IH]; simpl; [reflexivity|].
  intros H. apply andb_true_iff in H as [Hc Hs]. rewrite Hc, (IH Hs). reflexivity.
Qed.

Lemma rstrip_all f s : all_chars f s = true -> all_chars f (rstrip s) = true.
Proof.
  induction s as [|c s IH]; simpl; [reflexivity|].
  intros H. apply andb_true_iff in H as [Hc Hs]. specialize (IH Hs).
  destruct (rstrip s) as [|c' r].
  - destruct (isspace c); simpl; [reflexivity|]. rewrite Hc. reflexivity.
  - cbn [all_chars]. rewrite Hc. exact IH.
Qed.

Lemma rstrip_same s :
  (forall c, last_char s = Some c -> isspace c = false) -> rstrip s = s.
Proof.
  induction s as [|c s IH]; simpl; [reflexivity|].
  intros Hlast. destruct s as [|c' s'].
  - simpl. rewrite (Hlast c eq_refl). reflexivity.
  - rewrite (IH Hlast). reflexivity.
Qed.

Lemma all_chars_impl (f g : ascii -> bool) s :
  (forall c, f c = true -> g c = true) -> all_chars f s = true -> all_chars g s = true.
Proof.
  intros Hfg. induction s as [|c s IH]; simpl; [reflexivity|].
  intros H. apply andb_true_iff in H as [Hc Hs]. rewrite (Hfg c Hc), (IH Hs). reflexivity.
Qed.

Lemma keeps_no_separator c :
  keeps c = true -> negb (Ascii.eqb c "/") && negb (Ascii.eqb c "\") = true.
Proof.
  destruct (Ascii.eqb_spec c "/") as [->|_]; [discriminate|].
  destruct (Ascii.eqb_spec c "\") as [->|_]; [discriminate|]. reflexivity.
Qed.

Lemma rstrip_last s c : last_char (rstrip s) = Some c -> isspace c = false.
Proof.
  induction s as [|a s IH]; cbn; [discriminate|].
  destruct (rstrip s) as [|b r] eqn:Hr.
  - destruct (isspace a) eqn:Ha; cbn; [discriminate|].
    intros H. injection H as <-. exact Ha.
  - cbn [last_char]. exact IH.
Qed.

Lemma rstrip_of_blank s : all_chars isspace s = true -> rstrip s = ""%string.
Proof.
  induction s as [|c s IH]; cbn; [reflexivity|].
  intros H. apply andb_true_iff in H as [Hc Hs]. rewrite (IH Hs), Hc. reflexivity.
Qed.

Lemma rstrip_empty_blank s : rstrip s = ""%string -> all_chars isspace s = true.
Proof.
  induction s as [|c s IH]; cbn; [reflexivity|].
  destruct (rstrip s) as [|c' r]; [|discriminate].
  destruct (isspace c); [|discriminate]. intros _. apply IH. reflexivity.
Qed.

Lemma join_if_blank s :
  all_chars isspace (join_if keeps s)
  = all_chars (fun c => negb (keeps c) || isspace c) s.
Proof.
  induction s as [|c s IH]; cbn; [reflexivity|].
  destruct (keeps c); cbn; rewrite IH; reflexivity.
Qed.

(** X9: the name the worker hands to the engine is never empty and, for an
    ASCII filename, consists of letters, digits, spaces, hyphens,
    underscores and periods only, so that it holds no path separator,
    whatever the requested filename was (the timestamp of the fallback is
    digits and an underscore). It is 'download_' followed by the timestamp
    exactly when the filename has no character to keep but white space;
    otherwise it is the kept characters, in order, without the white space
    at the end. *)
Theorem safe_filename_is_safe filename timestamp :
  all_chars is_ascii filename = true ->
  all_chars keeps timestamp = true ->
  safe_filename filename timestamp <> ""%string /\
  all_chars keeps (safe_filename filename timestamp) = true /\
  all_chars (fun c => negb (Ascii.eqb c "/") && negb (Ascii.eqb c "\"))
            (safe_filename filename timestamp) = true /\
  (all_chars (fun c => negb (keeps c) || isspace c) filename = true ->
     safe_filename filename timestamp = ("download_" +:+ timestamp)%string) /\
  (all_chars (fun c => negb (keeps c) || isspace c) filename = false ->
     safe_filename filename timestamp = rstrip (join_if keeps filename) /\
     forall c, last_char (safe_filename filename timestamp) = Some c -> isspace c = false).
Proof.
  intros _ Hts.
  assert (Hk : all_chars keeps (safe_filename filename timestamp) = true).
  { unfold safe_filename.
    destruct (String.eqb _ _); [exact Hts|]. apply rstrip_all, join_if_all. }
  split; [|split; [exact Hk|split; [|split]]].
  - unfold safe_filename. destruct (String.eqb_spec (rstrip (join_if keeps filename)) "");
      [discriminate|assumption].
  - eapply all_chars_impl; [exact keeps_no_separator|exact Hk].
  - intros Hblank. unfold safe_filename.
    rewrite rstrip_of_blank by (rewrite join_if_blank; exact Hblank). reflexivity.
  - intros Hsome. unfold safe_filename.
    destruct (String.eqb_spec (rstrip (join_if keeps filename)) "") as [Hempty|Hne].
    + apply rstrip_empty_blank in Hempty. rewrite join_if_blank in Hempty. congruence.
    + split; [reflexivity|]. apply rstrip_last.
Qed.

(** X10: a filename that is not empty, has only letters, digits, spaces,
    hyphens, underscores and periods and does not end in white space is
    used as it is. *)
Theorem safe_filename_keeps_safe_names filename timestamp :
  filename <> ""%string ->
  all_chars keeps filename = true ->
  (forall c, last_char filename = Some c -> isspace c = false) ->
  safe_filename filename timestamp = filename.
Proof.
  intros Hne Hall Hlast. unfold safe_filename.
  rewrite (join_if_same keeps filename Hall), (rstrip_same filename Hlast).
  destruct (String.eqb_spec filename ""); [contradiction|reflexivity].
Qed.

(** what becomes of some filenames *)
Example safe_filename_examples :
  safe_filename "my video: part/1?.mp4  " "20241027_033320" = "my video part1.mp4"%string
  /\ safe_filename "../../etc/passwd" "20241027_033320" = "....etcpasswd"%string
  /\ safe_filename "???" "20241027_033320" = "download_20241027_033320"%string
  /\ safe_filename "" "20241027_033320" = "download_20241027_033320"%string
  /\ safe_filename_of PNone "20241027_033320" = None.
Proof. repeat split. Qed.

(* ===================================================================== *)
(** ** Further properties: the settings                                    *)
(* ===================================================================== *)

Lemma init_frame env :
  downloads (_init env) = ∅ /\ objs (_init env) = ∅ /\ executor (_init env) = [] /\
  settings_file (_init env)
  = ((home env +:+ "/Downloads/MediaDownloader") +:+ "/settings.json")%string.
Proof.
  unfold _init, load_settings. cbn.
  destruct (read_settings env _) as [s|]; [|repeat split].
  destruct (dict_get_default s _ _); repeat split.
Qed.

(** X11: a start of the process never fails on its settings: with no
    readable settings file, with one that has no 'download_path', or with
    one whose 'download_path' is not a string, the manager starts with the
    default directory under the home directory; it always starts with an
    empty registry and no task. *)
Theorem init_falls_back_to_defaults env :
  downloads (_init env) = ∅ /\ objs (_init env) = ∅ /\ executor (_init env) = [] /\
  (read_settings env (settings_file (_init env)) = None ->
     download_dir (_init env) = (home env +:+ "/Downloads/MediaDownloader")%string) /\
  (forall settings,
     read_settings env (settings_file (_init env)) = Some settings ->
     (forall p, settings !! "download_path" <> Some (PStr p)) ->
     download_dir (_init env) = (home env +:+ "/Downloads/MediaDownloader")%string) /\
  (forall settings p,
     read_settings env (settings_file (_init env)) = Some settings ->
     settings !! "download_path" = Some (PStr p) ->
     download_dir (_init env) = p).
Proof.
  destruct (init_frame env) as (Hd & Ho & He & Hsf).
  split; [exact Hd|]. split; [exact Ho|]. split; [exact He|].
  rewrite Hsf. unfold _init, load_settings. cbn.
  repeat split.
  - intros ->. reflexivity.
  - intros settings -> Hno. unfold dict_get_default.
    destruct (settings !! "download_path") as [[| | |p]|]; cbn; try reflexivity.
    exfalso. exact (Hno p eq_refl).
  - intros settings p -> Hp. unfold dict_get_default. rewrite Hp. reflexivity.
Qed.

(** X12: settings saved are the settings loaded: when the file can be
    written and 'download_path' is a string, [save_settings] switches the
    manager to that directory at once, reports what creating the directory
    gave (so it can report a failure after the switch), leaves every job,
    record and task alone, and a later start of the process from the files
    it left uses the same directory. *)
Theorem saved_settings_are_loaded home_dir settings mkdir_ok files m p :
  settings_file m = ((home_dir +:+ "/Downloads/MediaDownloader") +:+ "/settings.json")%string ->
  settings !! "download_path" = Some (PStr p) ->
  exists files' m',
    save_settings settings true mkdir_ok files m = (mkdir_ok, files', m') /\
    download_dir m' = p /\
    download_dir (_init (env_of home_dir files')) = p /\
    downloads m' = downloads m /\ objs m' = objs m /\ executor m' = executor m /\
    settings_file m' = settings_file m /\
    resp_status (fst (fst (handle_settings settings true mkdir_ok files m)))
    = (if mkdir_ok then 200 else 500).
Proof.
  intros Hsf Hp.
  assert (Hsave : save_settings settings true mkdir_ok files m
                  = (mkdir_ok, <[settings_file m := settings]> files,
                     Manager (downloads m) (objs m) (executor m) p (settings_file m))).
  { unfold save_settings, dict_get_default. rewrite Hp. reflexivity. }
  eexists _, _. split; [exact Hsave|]. cbn [download_dir downloads objs executor settings_file].
  repeat split.
  - unfold _init, load_settings, env_of. cbn. rewrite <- Hsf, lookup_insert_eq.
    unfold dict_get_default. rewrite Hp. reflexivity.
  - unfold handle_settings. rewrite Hsave. destruct mkdir_ok; reflexivity.
Qed.

(* ===================================================================== *)
(** ** Instances of the statements above                                   *)
(* ===================================================================== *)

Lemma run_after m acts :
  match run acts m with Some _ => true | None => false end = true ->
  run acts m = Some (after_from m acts).
Proof. unfold after_from. destruct (run acts m); [reflexivity|discriminate]. Qed.

Lemma creation_fields_never_change_witness :
  exists r', objs (after_from one_job reuse_run) !! 1%positive = Some r' /\
    r' !! "id" = one_job_record !! "id" /\ r' !! "url" = one_job_record !! "url" /\
    r' !! "format_id" = one_job_record !! "format_id" /\
    r' !! "filename" = one_job_record !! "filename" /\
    r' !! "started_at" = one_job_record !! "started_at".
Proof.
  apply (creation_fields_never_change reuse_run one_job (after_from one_job reuse_run)
           1%positive one_job_record); [|reflexivity].
  apply run_after. vm_compute. reflexivity.
Defined.

Lemma run_distinct_after acts :
  match run_distinct acts manager0 with Some _ => true | None => false end = true ->
  run_distinct acts manager0 = Some (after acts).
Proof. unfold after. destruct (run_distinct acts manager0); [reflexivity|discriminate]. Qed.

Lemma registered_ids_stay_registered_witness :
  (run (to_completed 0 ++ to_returned 0) one_job
   = Some (after_from one_job (to_completed 0 ++ to_returned 0)) ->
   is_Some (downloads (after_from one_job (to_completed 0 ++ to_returned 0)) !! "e56aa17c")) /\
  (run_distinct (to_completed 0 ++ to_returned 0) one_job
   = Some (after_from one_job (to_completed 0 ++ to_returned 0)) ->
   downloads (after_from one_job (to_completed 0 ++ to_returned 0)) !! "e56aa17c"
   = Some 1%positive /\
   is_Some (objs (after_from one_job (to_completed 0 ++ to_returned 0)) !! 1%positive)).
Proof.
  apply (registered_ids_stay_registered (to_completed 0 ++ to_returned 0) one_job
           (after_from one_job (to_completed 0 ++ to_returned 0)) "e56aa17c" 1%positive
           one_job_record); reflexivity.
Defined.

(** when the id is handed out again it stays registered, bound to the newer
    record, while the older record stays in the store as it was created *)
Example reused_id_is_rebound :
  downloads (after_from one_job reuse_run) !! "e56aa17c" = Some 2%positive
  /\ (r ← objs (after_from one_job reuse_run) !! 1%positive; r !! "status")
     = Some (PStr "queued").
Proof. split; vm_compute; reflexivity. Qed.

Lemma success_path_witness :
  exists m',
    run [Worker 0 (EngineReturns (Some "/srv/media/clip.mp4")); Worker 0 (Next "");
         Worker 0 (Next ""); Worker 0 (Next "2024-10-27T03:35:00")] downloading_job = Some m' /\
    objs m' !! 1%positive
    = Some (<["completed_at" := PStr "2024-10-27T03:35:00"]> (
            <["progress" := PInt 100]> (
            <["status" := PStr "completed"]> (
            located (Some "/srv/media/clip.mp4") downloading_record)))) /\
    executor m' !! 0%nat = Some (Task (task_id (Task "e56aa17c" (InEngine 1))) Returned) /\
    downloads m' = downloads downloading_job /\
    (forall l', l' <> 1%positive -> objs m' !! l' = objs downloading_job !! l').
Proof.
  apply (success_path 0 downloading_job (Task "e56aa17c" (InEngine 1)) 1%positive
           downloading_record (Some "/srv/media/clip.mp4") "" "" "2024-10-27T03:35:00");
    reflexivity.
Defined.

Lemma failure_path_witness :
  exists m',
    run [Worker 0 (Raise "ERROR: Unsupported URL"); Worker 0 (Next "");
         Worker 0 (Next "2024-10-27T03:35:00")] downloading_job = Some m' /\
    objs m' !! 1%positive
    = Some (<["completed_at" := PStr "2024-10-27T03:35:00"]> (
            <["error" := PStr "ERROR: Unsupported URL"]> (
            <["status" := PStr "error"]> downloading_record))) /\
    (forall k, k <> "status"%string -> k <> "error"%string -> k <> "completed_at"%string ->
       (<["completed_at" := PStr "2024-10-27T03:35:00"]> (
        <["error" := PStr "ERROR: Unsupported URL"]> (
        <["status" := PStr "error"]> downloading_record))) !! k = downloading_record !! k) /\
    executor m' !! 0%nat = Some (Task (task_id (Task "e56aa17c" (InEngine 1))) Returned) /\
    downloads m' = downloads downloading_job /\
    (forall l', l' <> 1%positive -> objs m' !! l' = objs downloading_job !! l').
Proof.
  apply (failure_path 0 downloading_job (Task "e56aa17c" (InEngine 1)) 1%positive
           downloading_record "ERROR: Unsupported URL" "" "2024-10-27T03:35:00");
    reflexivity.
Defined.

Lemma progress_creeps_to_90_witness :
  exists m' r',
    run (hook_calls 0 (replicate 12 blind_event)) downloading_job = Some m' /\
    objs m' !! 1%positive = Some r' /\
    r' !! "progress"
    = Some (PInt (Z.min (0 + 10 * Z.of_nat (List.length (replicate 12 blind_event))) 90)) /\
    status r' = status downloading_record.
Proof.
  apply (progress_creeps_to_90 0 (replicate 12 blind_event) downloading_job
           (Task "e56aa17c" (InEngine 1)) 1%positive downloading_record 0);
    try reflexivity; try lia.
  repeat constructor.
Defined.

(** twelve events without a total leave the progress at 90 *)
Example progress_after_12_blind_events :
  (m' ← run (hook_calls 0 (replicate 12 blind_event)) downloading_job;
   r' ← objs m' !! 1%positive; r' !! "progress") = Some (PInt 90).
Proof. reflexivity. Qed.

Lemma safe_filename_is_safe_witness :
  safe_filename "???  " "20241027_033320" <> ""%string /\
  all_chars keeps (safe_filename "???  " "20241027_033320") = true /\
  all_chars (fun c => negb (Ascii.eqb c "/") && negb (Ascii.eqb c "\"))
            (safe_filename "???  " "20241027_033320") = true /\
  (all_chars (fun c => negb (keeps c) || isspace c) "???  " = true ->
     safe_filename "???  " "20241027_033320" = ("download_" +:+ "20241027_033320")%string) /\
  (all_chars (fun c => negb (keeps c) || isspace c) "???  " = false ->
     safe_filename "???  " "20241027_033320" = rstrip (join_if keeps "???  ") /\
     forall c, last_char (safe_filename "???  " "20241027_033320") = Some c ->
               isspace c = false).
Proof.
  apply (safe_filename_is_safe "???  " "20241027_033320"); reflexivity.
Defined.

Lemma safe_filename_keeps_safe_names_witness :
  safe_filename "Holiday 2024 - part_1.final" "20241027_033320"
  = "Holiday 2024 - part_1.final"%string.
Proof.
  apply (safe_filename_keeps_safe_names "Holiday 2024 - part_1.final" "20241027_033320").
  - discriminate.
  - reflexivity.
  - intros c H. injection H as <-. reflexivity.
Defined.

Lemma saved_settings_are_loaded_witness :
  exists files' m',
    save_settings saved_settings true true ∅ one_job = (true, files', m') /\
    download_dir m' = "/srv/media"%string /\
    download_dir (_init (env_of "/home/user" files')) = "/srv/media"%string /\
    downloads m' = downloads one_job /\ objs m' = objs one_job /\
    executor m' = executor one_job /\
    settings_file m' = settings_file one_job /\
    resp_status (fst (fst (handle_settings saved_settings true true ∅ one_job)))
    = (if true then 200 else 500).
Proof.
  apply (saved_settings_are_loaded "/home/user" saved_settings true ∅ one_job "/srv/media");
    reflexivity.
Defined.
